(** * go-restclient: a single-host REST client

    A shallow embedding of the two copies of the client that the repository
    holds,

    - [src/restclient.go]      (module [Restclient]), and
    - [src/unnamed/part_000]   (module [Part000]),

    together with the properties of the client's behaviour.

    The client is a thin layer over Go's [net/http] and [encoding/json].
    Those packages are not part of the repository: their answers are taken
    from a [GoRuntime] (what marshalling gives, whether a request can be
    built, what the transport answers, what the decoder says), and every
    effectful call the client makes on them is recorded, in order, in a
    trace of [Event]s.  A call of the client is a [Run]: the trace it leaves
    and either the values it returns or a run-time panic. *)

From Stdlib Require Import ZArith String Ascii List Bool Lia DecimalString.
Import ListNotations.

Open Scope string_scope.
Open Scope list_scope.
Open Scope Z_scope.

(** ** Go values *)

(** A Go [error] value, by its message; [option error] is an [error] that
    may be [nil]. *)
Definition error : Type := string.

(** An [io.Reader] given as a request payload, by the bytes it yields. *)
Definition Reader : Type := string.

(** An [io.ReadCloser]: the body of a response, by the bytes it holds. *)
Record ReadCloser : Type := bodyOf { contents : string }.

(** [*http.Request], as [http.NewRequest] is asked to build it. *)
Record Request : Type := mkRequest {
  Method  : string;
  URL     : string;
  Payload : Reader
}.

(** [*http.Response]: the two fields the client reads.  The transport
    guarantees a non-nil [Body] on every response it delivers. *)
Record Response : Type := mkResponse {
  StatusCode : Z;
  Body       : ReadCloser
}.

(** [interface{}]: the dynamic value of a payload or of a decode target.
    [Nil] is the nil interface, [IsReader] a value that satisfies
    [io.Reader], [Other] any other value. *)
Inductive any (V : Type) : Type :=
| Nil
| IsReader (r : Reader)
| Other (v : V).
Arguments Nil {V}.
Arguments IsReader {V} r.
Arguments Other {V} v.

(** [payload.(io.Reader)], the comma-ok type assertion. *)
Definition asReader {V} (payload : any V) : option Reader :=
  match payload with
  | IsReader r => Some r
  | _ => None
  end.

(** [into == nil]. *)
Definition isNil {V} (into : any V) : bool :=
  match into with
  | Nil => true
  | _ => false
  end.

Definition isSome {A} (o : option A) : bool :=
  match o with
  | Some _ => true
  | None => false
  end.

(** ** The standard library the client runs on *)

Class GoRuntime : Type := {
  (** Go values that are not readers. *)
  value : Type;
  (** [json.Marshal(v)]. *)
  json_Marshal : any value -> error + string;
  (** [http.NewRequest(method, url, body)]. *)
  http_NewRequest : string -> string -> Reader -> error + Request;
  (** What the transport answers to [(&http.Client{}).Do(req)]. *)
  roundTrip : Request -> error + Response;
  (** What [json.NewDecoder(body).Decode(into)] returns. *)
  json_Decode : ReadCloser -> any value -> option error;
  (** [Decode] never succeeds into the nil interface: it returns the
      error of reading the value or, failing that, an
      [InvalidUnmarshalError]. *)
  json_Decode_nil : forall body, isSome (json_Decode body Nil) = true
}.

(** [strconv.Itoa]: the decimal digits of [i], after a minus sign when
    [i] is negative. *)
Definition Itoa (i : Z) : string := NilZero.string_of_int (Z.to_int i).

(** [strings.HasPrefix(s, prefix)]. *)
Definition HasPrefix (s prefix : string) : bool := String.prefix prefix s.

(** ** Effects *)

(** How a call ends: it returns, or it panics at run time. *)
Inductive result (A : Type) : Type :=
| Returns (a : A)
| Panics.
Arguments Returns {A} a.
Arguments Panics {A}.

Section Effects.
Context {rt : GoRuntime}.

(** The effectful calls that leave the client. *)
Inductive Event : Type :=
| Sent (req : Request)
    (* the request was handed to the transport *)
| Read (body : ReadCloser)
    (* bytes were pulled from a body by caller code *)
| Decoded (body : ReadCloser) (into : any value)
    (* a JSON decoder was run on a body *)
| Closed (body : ReadCloser).
    (* Close() was called on a body *)

Definition Run (A : Type) : Type := (list Event * result A)%type.

Definition ret {A} (a : A) : Run A := ([], Returns a).

Definition panic {A} : Run A := ([], Panics).

Definition bind {A B} (m : Run A) (k : A -> Run B) : Run B :=
  match m with
  | (t, Returns a) => let (t', r) := k a in (t ++ t', r)
  | (t, Panics) => (t, Panics)
  end.

Definition emit (e : Event) : Run unit := ([e], Returns tt).

(** [defer cleanup] in front of the rest of a function body: [cleanup]
    runs when the body is left, by return or by panic. *)
Definition defer {A} (cleanup : Run unit) (body : Run A) : Run A :=
  let (t, r) := body in
  let (t', r') := cleanup in
  (t ++ t', match r' with
            | Returns _ => r
            | Panics => Panics
            end).

(** [(&http.Client{}).Do(req)]. *)
Definition http_Client_Do (req : Request) : Run (error + Response) :=
  bind (emit (Sent req)) (fun _ => ret (roundTrip req)).

(** [body.Close()]; the client never looks at what it returns. *)
Definition Close (body : ReadCloser) : Run unit := emit (Closed body).

(** [json.NewDecoder(body).Decode(into)]. *)
Definition Decode (body : ReadCloser) (into : any value) : Run (option error) :=
  bind (emit (Decoded body into)) (fun _ => ret (json_Decode body into)).

(** What the properties ask of a trace. *)
Definition sameBody (b b' : ReadCloser) : bool :=
  String.eqb (contents b) (contents b').

Definition closes (body : ReadCloser) (e : Event) : bool :=
  match e with Closed b => sameBody body b | _ => false end.

(** [body] was closed by the time the trace ends. *)
Definition closedIn (body : ReadCloser) (t : list Event) : bool :=
  existsb (closes body) t.

(** Go function type [func(req, resp) error] of the custom error
    constructors: caller code, free to read or close the body of the
    response, to return a nil error, or to panic. *)
Definition ErrorConstructor : Type :=
  Request -> Response -> Run (option error).
End Effects.

Declare Scope run_scope.
Delimit Scope run_scope with run.
Notation "x <- m ;; k" := (bind m (fun x => k))
  (at level 61, m at next level, right associativity) : run_scope.
Notation "' pat <- m ;; k" := (bind m (fun x => match x with pat => k end))
  (at level 61, pat pattern, m at next level, right associativity) : run_scope.
Open Scope run_scope.


(** ** src/restclient.go

    The methods of this copy name their first parameter [path] and their
    second [method]; the [Client] interface they implement, and its
    callers, put the method first.  The functions below keep the order and
    the names of the source. *)

Module Restclient.
Section Client.
Context {rt : GoRuntime}.

Definition http_port_default : Z := 80.
Definition https_port_default : Z := 443.

Record httpClient : Type := mkClient {
  host : string;
  port : Z;
  use_https : bool;
  customErrorStatusCodes : list Z;
  customErrorConstructor : option ErrorConstructor
}.

Definition New (host : string) (port : Z) (use_https : bool) : httpClient :=
  mkClient host port use_https [] None.

Definition fullPath (client : httpClient) (path : string) : string :=
  let '(proto, default_port) :=
    if use_https client
    then ("https", https_port_default)
    else ("http", http_port_default) in
  let port :=
    if negb (port client =? default_port)
    then (":" ++ Itoa (port client))%string
    else "" in
  let path :=
    if negb (HasPrefix path "/")
    then ("/" ++ path)%string
    else path in
  ((((proto ++ "://") ++ host client) ++ port) ++ path)%string.

Fixpoint rangeHasCode (codes : list Z) (status_code : Z) : bool :=
  match codes with
  | [] => false
  | c :: rest => if c =? status_code then true else rangeHasCode rest status_code
  end.

Definition hasCustomError (client : httpClient) (status_code : Z) : bool :=
  rangeHasCode (customErrorStatusCodes client) status_code.

(** A nil constructor is a nil function value: calling it panics. *)
Definition customErrorResponse (client : httpClient)
    (req : Request) (resp : Response) : Run (option error) :=
  match customErrorConstructor client with
  | Some fn => fn req resp
  | None => panic
  end.

Definition requestRaw (client : httpClient) (path method : string)
    (payload : Reader) : Run (Z * option ReadCloser * option error) :=
  let full_path := fullPath client path in
  match http_NewRequest method full_path payload with
  | inl err => ret (-1, None, Some err)
  | inr req =>
      r <- http_Client_Do req ;;
      match r with
      | inl err => ret (-1, None, Some err)
      | inr resp =>
          if hasCustomError client (StatusCode resp)
          then err <- customErrorResponse client req resp ;;
               ret (StatusCode resp, None, err)
          else ret (StatusCode resp, Some (Body resp), None)
      end
  end.

Definition request (client : httpClient) (path method : string)
    (payload : any value) : Run (Z * option ReadCloser * option error) :=
  match asReader payload with
  | Some rdr => requestRaw client path method rdr
  | None =>
      (* Payload is not a reader - assume it's JSON and try to encode it *)
      match json_Marshal payload with
      | inl err => ret (-1, None, Some err)
      | inr enc => requestRaw client path method enc
      end
  end.

(** [defer body.Close()] evaluates the method value [body.Close]: on a
    nil [body] that is a nil dereference and the call panics. *)
Definition requestJSON (client : httpClient) (path method : string)
    (payload into : any value) : Run (Z * option error) :=
  '(status, body, err) <- request client path method payload ;;
  match err with
  | Some e => ret (status, Some e)
  | None =>
      match body with
      | None => panic
      | Some body =>
          defer (Close body)
            (e <- Decode body into ;; ret (status, e))
      end
  end.

Definition Do (client : httpClient) (path method : string)
    (payload into : any value) : Run (Z * option error) :=
  requestJSON client path method payload into.

Definition DoStream (client : httpClient) (path method : string)
    (payload : any value) : Run (Z * option ReadCloser * option error) :=
  request client path method payload.

Definition SetErrorConstructor (client : httpClient) (status_codes : list Z)
    (fn : option ErrorConstructor) : httpClient :=
  mkClient (host client) (port client) (use_https client) status_codes fn.
End Client.
End Restclient.

(** ** src/unnamed/part_000 *)

Module Part000.
Section Client.
Context {rt : GoRuntime}.

Definition httpPortDefault : Z := 80.
Definition httpsPortDefault : Z := 443.

Record httpClient : Type := mkClient {
  host : string;
  port : Z;
  useHTTPS : bool;
  customErrorStatusCodes : list Z;
  customErrorConstructor : option ErrorConstructor
}.

Definition New (host : string) (port : Z) (useHTTPS : bool) : httpClient :=
  mkClient host port useHTTPS [] None.

Definition fullPath (client : httpClient) (path : string) : string :=
  let '(proto, defaultPort) :=
    if useHTTPS client
    then ("https", httpsPortDefault)
    else ("http", httpPortDefault) in
  let port :=
    if negb (port client =? defaultPort)
    then (":" ++ Itoa (port client))%string
    else "" in
  let path :=
    if negb (HasPrefix path "/")
    then ("/" ++ path)%string
    else path in
  ((((proto ++ "://") ++ host client) ++ port) ++ path)%string.

Fixpoint rangeHasCode (codes : list Z) (statusCode : Z) : bool :=
  match codes with
  | [] => false
  | c :: rest => if c =? statusCode then true else rangeHasCode rest statusCode
  end.

Definition hasCustomError (client : httpClient) (statusCode : Z) : bool :=
  rangeHasCode (customErrorStatusCodes client) statusCode.

(** [defer resp.Body.Close()] comes first, so the body is closed when
    the constructor is done, also when it is nil and the call panics. *)
Definition customErrorResponse (client : httpClient)
    (req : Request) (resp : Response) : Run (option error) :=
  defer (Close (Body resp))
    match customErrorConstructor client with
    | Some fn => fn req resp
    | None => panic
    end.

Definition requestRaw (client : httpClient) (method path : string)
    (payload : Reader) : Run (Z * option ReadCloser * option error) :=
  let fullPath := fullPath client path in
  match http_NewRequest method fullPath payload with
  | inl err => ret (-1, None, Some err)
  | inr req =>
      r <- http_Client_Do req ;;
      match r with
      | inl err => ret (-1, None, Some err)
      | inr resp =>
          if hasCustomError client (StatusCode resp)
          then err <- customErrorResponse client req resp ;;
               ret (StatusCode resp, None, err)
          else ret (StatusCode resp, Some (Body resp), None)
      end
  end.

Definition request (client : httpClient) (method path : string)
    (payload : any value) : Run (Z * option ReadCloser * option error) :=
  match asReader payload with
  | Some rdr => requestRaw client method path rdr
  | None =>
      (* Payload is not a reader - assume it's JSON and try to encode it *)
      match json_Marshal payload with
      | inl err => ret (-1, None, Some err)
      | inr enc => requestRaw client method path enc
      end
  end.

Definition handleJSONResponse (body : ReadCloser) (into : any value)
    : Run (option error) :=
  if isNil into then ret None
  else Decode body into.

(** [defer body.Close()] evaluates the method value [body.Close]: on a
    nil [body] that is a nil dereference and the call panics. *)
Definition requestJSON (client : httpClient) (method path : string)
    (payload into : any value) : Run (Z * option error) :=
  '(status, body, err) <- request client method path payload ;;
  match err with
  | Some e => ret (status, Some e)
  | None =>
      match body with
      | None => panic
      | Some body =>
          defer (Close body)
            (e <- handleJSONResponse body into ;; ret (status, e))
      end
  end.

Definition Do (client : httpClient) (method path : string)
    (payload into : any value) : Run (Z * option error) :=
  requestJSON client method path payload into.

Definition DoStream (client : httpClient) (method path : string)
    (payload : any value) : Run (Z * option ReadCloser * option error) :=
  request client method path payload.

Definition SetErrorConstructor (client : httpClient) (statusCodes : list Z)
    (fn : option ErrorConstructor) : httpClient :=
  mkClient (host client) (port client) (useHTTPS client) statusCodes fn.
End Client.
End Part000.

(** ** The specification's words *)

(** The URL of section 4.1: [scheme://host[:port]path]. *)
Definition scheme (useTLS : bool) : string :=
  if useTLS then "https" else "http".

Definition conventionalPort (useTLS : bool) : Z :=
  if useTLS then 443 else 80.

Definition portSeg (useTLS : bool) (n : Z) : string :=
  if n =? conventionalPort useTLS then "" else (":" ++ Itoa n)%string.

Definition startsWithSlash (p : string) : bool :=
  match p with
  | String c _ => Ascii.eqb c "/"
  | EmptyString => false
  end.

Definition withLeadingSlash (p : string) : string :=
  if startsWithSlash p then p else ("/" ++ p)%string.

Definition specURL (h : string) (n : Z) (t : bool) (p : string) : string :=
  (scheme t ++ "://" ++ h ++ portSeg t n ++ withLeadingSlash p)%string.

(** Payload dispatch: the byte stream that goes into the request, or the
    error of serializing a payload that is not a stream. *)
Definition payloadReader {rt : GoRuntime} (payload : any value) : error + Reader :=
  match asReader payload with
  | Some rdr => inr rdr
  | None => json_Marshal payload
  end.

(** What a function makes of the result of a call it passes on. *)
Definition passOn {A B} (f : A -> B) (r : result A) : result B :=
  match r with
  | Returns a => Returns (f a)
  | Panics => Panics
  end.

(** ** A runtime to run the client on *)

(** Values are named by a string; channels cannot be marshalled, requests
    need an upper-case method and a host without blanks, every request gets
    the one [answer], and the decoder reads a JSON value (here [{}] or
    [[]]) and stores it into any non-nil target. *)
Definition isUpper (c : ascii) : bool :=
  ((65 <=? nat_of_ascii c) && (nat_of_ascii c <=? 90))%nat.

Fixpoint allChars (f : ascii -> bool) (s : string) : bool :=
  match s with
  | EmptyString => true
  | String c s' => f c && allChars f s'
  end.

Definition isJSON (s : string) : bool :=
  String.eqb s "{}" || String.eqb s "[]".

Definition fixedRuntime (answer : error + Response) : GoRuntime := {|
  value := string;
  json_Marshal := fun v =>
    match v with
    | Nil => inr "null"
    | IsReader r => inr "{}"
    | Other v => if String.eqb v "chan" then inl "json: unsupported type: chan int"
                 else inr v
    end;
  http_NewRequest := fun method url body =>
    if negb (allChars isUpper method) then inl "net/http: invalid method"
    else if negb (allChars (fun c => negb (Ascii.eqb c " ")) url) then inl "parse: invalid character in host name"
    else inr (mkRequest method url body);
  roundTrip := fun _ => answer;
  json_Decode := fun body into =>
    match into with
    | Nil => Some (if isJSON (contents body) then "json: Unmarshal(nil)"
                   else "invalid character looking for beginning of value")
    | _ => if isJSON (contents body) then None
           else Some "invalid character looking for beginning of value"
    end;
  json_Decode_nil := fun _ => eq_refl
|}.

(** A response with status 400 and a body that is valid JSON, one with
    status 200 and a body that is not JSON. *)
Definition badRequest : Response := mkResponse 400 (bodyOf "{}").
Definition okNotJSON : Response := mkResponse 200 (bodyOf "<html>").
Definition okJSON : Response := mkResponse 200 (bodyOf "{}").

(** Constructors: one that reads the body and reports it, one that leaves
    the body alone, one that returns a nil error. *)
Definition readingConstructor {rt : GoRuntime} : ErrorConstructor :=
  fun _ resp => ([Read (Body resp)], Returns (Some "response is not valid mate")).

Definition idleConstructor {rt : GoRuntime} : ErrorConstructor :=
  fun _ _ => ret (Some "bad request").

Definition nilConstructor {rt : GoRuntime} : ErrorConstructor :=
  fun _ _ => ret None.

(** ** The two copies side by side *)



(** ** The test of URL assembly

    [TestHttpClientPath] of [src/restclient_test.go] and of
    [src/unnamed/part_001]: the table of cases, and the loop over it, which
    reports the cases whose URL is not the expected one. *)
Record pathCase : Type := mkPathCase {
  case_host : string;
  case_port : Z;
  case_https : bool;
  case_path : string;
  case_expect : string
}.

Definition pathCases : list pathCase := [
  mkPathCase "foo.net" 80 false "/haha" "http://foo.net/haha";
  mkPathCase "bar.net" 81 false "/haha" "http://bar.net:81/haha";
  mkPathCase "bang.net" 443 true "/haha" "https://bang.net/haha";
  mkPathCase "bux.net" 444 true "/haha" "https://bux.net:444/haha";
  (* Make sure it works without the forward slash prefix *)
  mkPathCase "foo.net" 80 false "haha" "http://foo.net/haha";
  mkPathCase "bar.net" 81 false "haha" "http://bar.net:81/haha"
].

(** The cases on which the loop calls [t.Errorf]. *)
Definition TestHttpClientPath_restclient {rt : GoRuntime} : list pathCase :=
  filter (fun c =>
            let p := Restclient.fullPath
                       (Restclient.New (case_host c) (case_port c) (case_https c))
                       (case_path c) in
            negb (String.eqb p (case_expect c)))
         pathCases.

Definition TestHttpClientPath_part000 {rt : GoRuntime} : list pathCase :=
  filter (fun c =>
            let p := Part000.fullPath
                       (Part000.New (case_host c) (case_port c) (case_https c))
                       (case_path c) in
            negb (String.eqb p (case_expect c)))
         pathCases.

(** A constructor that panics. *)
Definition panickingConstructor {rt : GoRuntime} : ErrorConstructor :=
  fun _ _ => panic.

(** * Properties *)

(** ** URL assembly *)

Lemma append_assoc (s1 s2 s3 : string) :
  ((s1 ++ s2) ++ s3 = s1 ++ (s2 ++ s3))%string.
Proof.
  induction s1 as [|c s1 IH]; simpl; [reflexivity | now rewrite IH].
Qed.

Lemma prefix_empty (s : string) : String.prefix "" s = true.
Proof. destruct s; reflexivity. Qed.

Lemma HasPrefix_slash (p : string) : HasPrefix p "/" = startsWithSlash p.
Proof.
  unfold HasPrefix.
  destruct p as [|c p']; [reflexivity|].
  change (String.prefix "/" (String c p'))
    with (if ascii_dec "/" c then String.prefix "" p' else false).
  unfold startsWithSlash.
  destruct (ascii_dec "/" c) as [<-|Hne].
  - now rewrite prefix_empty, Ascii.eqb_refl.
  - symmetry. apply Ascii.eqb_neq. congruence.
Qed.

Lemma withLeadingSlash_starts (p : string) :
  startsWithSlash (withLeadingSlash p) = true.
Proof.
  unfold withLeadingSlash.
  destruct (startsWithSlash p) eqn:E; [exact E | reflexivity].
Qed.

Lemma withLeadingSlash_idem (p : string) :
  withLeadingSlash (withLeadingSlash p) = withLeadingSlash p.
Proof.
  unfold withLeadingSlash at 1. now rewrite withLeadingSlash_starts.
Qed.

Ltac to_spec_url :=
  unfold specURL, scheme, portSeg, conventionalPort, withLeadingSlash;
  rewrite HasPrefix_slash;
  repeat match goal with
         | |- context [if ?b then _ else _] => destruct b eqn:?
         end;
  cbn [negb fst snd];
  rewrite ?append_assoc;
  try reflexivity; try discriminate.

Section URLAssembly.
Context {rt : GoRuntime}.

Lemma restclient_fullPath_url (c : Restclient.httpClient) (p : string) :
  Restclient.fullPath c p =
  specURL (Restclient.host c) (Restclient.port c) (Restclient.use_https c) p.
Proof.
  unfold Restclient.fullPath, Restclient.https_port_default,
    Restclient.http_port_default.
  to_spec_url.
Qed.

Lemma part000_fullPath_url (c : Part000.httpClient) (p : string) :
  Part000.fullPath c p =
  specURL (Part000.host c) (Part000.port c) (Part000.useHTTPS c) p.
Proof.
  unfold Part000.fullPath, Part000.httpsPortDefault, Part000.httpPortDefault.
  to_spec_url.
Qed.

Lemma specURL_slash (h : string) (n : Z) (t : bool) (x : string) :
  startsWithSlash x = false ->
  specURL h n t x = specURL h n t ("/" ++ x).
Proof.
  intros Hx. unfold specURL, withLeadingSlash. now rewrite Hx.
Qed.
End URLAssembly.

(** ** One call, step by step *)

Lemma rangeHasCode_In_restclient (codes : list Z) (code : Z) :
  Restclient.rangeHasCode codes code = true <-> In code codes.
Proof.
  induction codes as [|c rest IH]; simpl.
  - split; [discriminate | tauto].
  - destruct (Z.eqb_spec c code) as [->|Hne].
    + split; auto.
    + rewrite IH. split; [auto | intros [H|H]; [contradiction | exact H]].
Qed.

Lemma rangeHasCode_In_part000 (codes : list Z) (code : Z) :
  Part000.rangeHasCode codes code = true <-> In code codes.
Proof.
  induction codes as [|c rest IH]; simpl.
  - split; [discriminate | tauto].
  - destruct (Z.eqb_spec c code) as [->|Hne].
    + split; auto.
    + rewrite IH. split; [auto | intros [H|H]; [contradiction | exact H]].
Qed.

(** Rewrite with what is known of the runtime's answers, then run. *)
Ltac known_answers :=
  repeat match goal with
         | H : payloadReader _ = _ |- _ => unfold payloadReader in H
         | H : asReader ?p = _ |- context [asReader ?p] => rewrite H
         | H : json_Marshal ?p = _ |- context [json_Marshal ?p] => rewrite H
         | H : http_NewRequest ?m ?u ?r = _ |- context [http_NewRequest ?m ?u ?r] => rewrite H
         | H : roundTrip ?r = _ |- context [roundTrip ?r] => rewrite H
         | H : Restclient.hasCustomError ?c ?s = _ |- context [Restclient.hasCustomError ?c ?s] => rewrite H
         | H : Part000.hasCustomError ?c ?s = _ |- context [Part000.hasCustomError ?c ?s] => rewrite H
         end.

Ltac run := cbn [bind ret emit panic defer http_Client_Do Close Decode app fst snd passOn].

Section RestclientCalls.
Context {rt : GoRuntime}.
Variable c : Restclient.httpClient.
Variables path method : string.

Lemma restclient_request_dispatch (payload : any value) :
  Restclient.request c path method payload =
  match payloadReader payload with
  | inl err => ret (-1, None, Some err)
  | inr rdr => Restclient.requestRaw c path method rdr
  end.
Proof.
  unfold Restclient.request, payloadReader.
  destruct (asReader payload); [reflexivity|].
  destruct (json_Marshal payload); reflexivity.
Qed.

Variable rdr : Reader.

Lemma restclient_raw_unbuilt (e : error) :
  http_NewRequest method (Restclient.fullPath c path) rdr = inl e ->
  Restclient.requestRaw c path method rdr = ([], Returns (-1, None, Some e)).
Proof. intros H. unfold Restclient.requestRaw. now known_answers. Qed.

Variable req : Request.
Hypothesis built :
  http_NewRequest method (Restclient.fullPath c path) rdr = inr req.

Lemma restclient_raw_unanswered (e : error) :
  roundTrip req = inl e ->
  Restclient.requestRaw c path method rdr =
  ([Sent req], Returns (-1, None, Some e)).
Proof. intros H. unfold Restclient.requestRaw. known_answers. run. now known_answers. Qed.

Variable resp : Response.
Hypothesis delivered : roundTrip req = inr resp.

Lemma restclient_raw_plain :
  Restclient.hasCustomError c (StatusCode resp) = false ->
  Restclient.requestRaw c path method rdr =
  ([Sent req], Returns (StatusCode resp, Some (Body resp), None)).
Proof.
  intros H. unfold Restclient.requestRaw. known_answers. run.
  now known_answers.
Qed.

Lemma restclient_raw_custom :
  Restclient.hasCustomError c (StatusCode resp) = true ->
  Restclient.requestRaw c path method rdr =
  (Sent req :: fst (Restclient.customErrorResponse c req resp),
   passOn (fun err => (StatusCode resp, None, err))
          (snd (Restclient.customErrorResponse c req resp))).
Proof.
  intros H. unfold Restclient.requestRaw. known_answers. run.
  known_answers.
  destruct (Restclient.customErrorResponse c req resp) as [t [err|]];
    run; now rewrite ?app_nil_r.
Qed.
End RestclientCalls.

Section Part000Calls.
Context {rt : GoRuntime}.
Variable c : Part000.httpClient.
Variables method path : string.

Lemma part000_request_dispatch (payload : any value) :
  Part000.request c method path payload =
  match payloadReader payload with
  | inl err => ret (-1, None, Some err)
  | inr rdr => Part000.requestRaw c method path rdr
  end.
Proof.
  unfold Part000.request, payloadReader.
  destruct (asReader payload); [reflexivity|].
  destruct (json_Marshal payload); reflexivity.
Qed.

Variable rdr : Reader.

Lemma part000_raw_unbuilt (e : error) :
  http_NewRequest method (Part000.fullPath c path) rdr = inl e ->
  Part000.requestRaw c method path rdr = ([], Returns (-1, None, Some e)).
Proof. intros H. unfold Part000.requestRaw. now known_answers. Qed.

Variable req : Request.
Hypothesis built :
  http_NewRequest method (Part000.fullPath c path) rdr = inr req.

Lemma part000_raw_unanswered (e : error) :
  roundTrip req = inl e ->
  Part000.requestRaw c method path rdr =
  ([Sent req], Returns (-1, None, Some e)).
Proof. intros H. unfold Part000.requestRaw. known_answers. run. now known_answers. Qed.

Variable resp : Response.
Hypothesis delivered : roundTrip req = inr resp.

Lemma part000_raw_plain :
  Part000.hasCustomError c (StatusCode resp) = false ->
  Part000.requestRaw c method path rdr =
  ([Sent req], Returns (StatusCode resp, Some (Body resp), None)).
Proof.
  intros H. unfold Part000.requestRaw. known_answers. run.
  now known_answers.
Qed.

Lemma part000_raw_custom :
  Part000.hasCustomError c (StatusCode resp) = true ->
  Part000.requestRaw c method path rdr =
  (Sent req :: fst (Part000.customErrorResponse c req resp),
   passOn (fun err => (StatusCode resp, None, err))
          (snd (Part000.customErrorResponse c req resp))).
Proof.
  intros H. unfold Part000.requestRaw. known_answers. run.
  known_answers.
  destruct (Part000.customErrorResponse c req resp) as [t [err|]];
    run; now rewrite ?app_nil_r.
Qed.
End Part000Calls.

(** ** Calls that obtain no response *)

Ltac enter_restclient :=
  unfold Restclient.Do, Restclient.DoStream, Restclient.requestJSON;
  rewrite restclient_request_dispatch.

Ltac enter_part000 :=
  unfold Part000.Do, Part000.DoStream, Part000.requestJSON;
  rewrite part000_request_dispatch.

Lemma not_reader_payload {rt : GoRuntime} (payload : any value) (e : error) :
  asReader payload = None -> json_Marshal payload = inl e ->
  payloadReader payload = inl e.
Proof. intros Hr Hm. unfold payloadReader. now rewrite Hr. Qed.

(** C3 -- When the payload is not an [io.Reader] and [json.Marshal] fails
    on it, [DoStream] returns status -1, a nil stream and the marshalling
    error, [Do] returns status -1 and the marshalling error, and the trace
    of either call is empty: no request is sent, no network I/O occurs.
    This holds in both copies of the client. *)
Theorem marshal_failure_sends_nothing {rt : GoRuntime} :
  (forall (c : Restclient.httpClient) (path method : string)
          (payload into : any value) (e : error),
      asReader payload = None ->
      json_Marshal payload = inl e ->
      Restclient.DoStream c path method payload =
        ([], Returns (-1, None, Some e)) /\
      Restclient.Do c path method payload into =
        ([], Returns (-1, Some e)))
  /\
  (forall (c : Part000.httpClient) (method path : string)
          (payload into : any value) (e : error),
      asReader payload = None ->
      json_Marshal payload = inl e ->
      Part000.DoStream c method path payload =
        ([], Returns (-1, None, Some e)) /\
      Part000.Do c method path payload into =
        ([], Returns (-1, Some e))).
Proof.
  split; intros c a b payload into e Hr Hm;
    pose proof (not_reader_payload payload e Hr Hm) as Hp.
  - split; enter_restclient; now rewrite Hp.
  - split; enter_part000; now rewrite Hp.
Qed.

(** C9 -- When [http.NewRequest] refuses the method and the assembled URL,
    [DoStream] returns status -1, a nil stream and that error, [Do] returns
    status -1 and that error, and the trace of either call is empty: the
    transport is never reached.  This holds in both copies of the
    client. *)
Theorem request_construction_failure {rt : GoRuntime} :
  (forall (c : Restclient.httpClient) (path method : string)
          (payload into : any value) (rdr : Reader) (e : error),
      payloadReader payload = inr rdr ->
      http_NewRequest method (Restclient.fullPath c path) rdr = inl e ->
      Restclient.DoStream c path method payload =
        ([], Returns (-1, None, Some e)) /\
      Restclient.Do c path method payload into =
        ([], Returns (-1, Some e)))
  /\
  (forall (c : Part000.httpClient) (method path : string)
          (payload into : any value) (rdr : Reader) (e : error),
      payloadReader payload = inr rdr ->
      http_NewRequest method (Part000.fullPath c path) rdr = inl e ->
      Part000.DoStream c method path payload =
        ([], Returns (-1, None, Some e)) /\
      Part000.Do c method path payload into =
        ([], Returns (-1, Some e))).
Proof.
  split; intros c a b payload into rdr e Hp Hn.
  - split; enter_restclient; rewrite Hp;
      now rewrite (restclient_raw_unbuilt c a b rdr e Hn).
  - split; enter_part000; rewrite Hp;
      now rewrite (part000_raw_unbuilt c a b rdr e Hn).
Qed.

(** C8 -- When the request is built and sent but the transport delivers
    no response, [DoStream] returns status -1, a nil stream and the
    transport error, [Do] returns status -1 and the transport error, and
    the trace holds the sending of the request and nothing else: no body
    is read, decoded or closed.  This holds in both copies of the
    client. *)
Theorem transport_failure {rt : GoRuntime} :
  (forall (c : Restclient.httpClient) (path method : string)
          (payload into : any value) (rdr : Reader) (req : Request) (e : error),
      payloadReader payload = inr rdr ->
      http_NewRequest method (Restclient.fullPath c path) rdr = inr req ->
      roundTrip req = inl e ->
      Restclient.DoStream c path method payload =
        ([Sent req], Returns (-1, None, Some e)) /\
      Restclient.Do c path method payload into =
        ([Sent req], Returns (-1, Some e)))
  /\
  (forall (c : Part000.httpClient) (method path : string)
          (payload into : any value) (rdr : Reader) (req : Request) (e : error),
      payloadReader payload = inr rdr ->
      http_NewRequest method (Part000.fullPath c path) rdr = inr req ->
      roundTrip req = inl e ->
      Part000.DoStream c method path payload =
        ([Sent req], Returns (-1, None, Some e)) /\
      Part000.Do c method path payload into =
        ([Sent req], Returns (-1, Some e))).
Proof.
  split; intros c a b payload into rdr req e Hp Hn Ht.
  - split; enter_restclient; rewrite Hp;
      now rewrite (restclient_raw_unanswered c a b rdr req Hn e Ht).
  - split; enter_part000; rewrite Hp;
      now rewrite (part000_raw_unanswered c a b rdr req Hn e Ht).
Qed.

(** ** Calls that obtain a response *)

Section RestclientAnswered.
Context {rt : GoRuntime}.
Variable c : Restclient.httpClient.
Variables path method : string.
Variable payload : any value.
Variable rdr : Reader.
Variable req : Request.
Variable resp : Response.
Hypothesis dispatched : payloadReader payload = inr rdr.
Hypothesis built :
  http_NewRequest method (Restclient.fullPath c path) rdr = inr req.
Hypothesis delivered : roundTrip req = inr resp.

Lemma restclient_stream_plain :
  Restclient.hasCustomError c (StatusCode resp) = false ->
  Restclient.DoStream c path method payload =
  ([Sent req], Returns (StatusCode resp, Some (Body resp), None)).
Proof.
  intros H. enter_restclient. rewrite dispatched.
  exact (restclient_raw_plain c path method rdr req built resp delivered H).
Qed.

Lemma restclient_do_plain (into : any value) :
  Restclient.hasCustomError c (StatusCode resp) = false ->
  Restclient.Do c path method payload into =
  ([Sent req; Decoded (Body resp) into; Closed (Body resp)],
   Returns (StatusCode resp, json_Decode (Body resp) into)).
Proof.
  intros H. enter_restclient. rewrite dispatched.
  rewrite (restclient_raw_plain c path method rdr req built resp delivered H).
  reflexivity.
Qed.

Variable fn : ErrorConstructor.
Hypothesis matched : Restclient.hasCustomError c (StatusCode resp) = true.
Hypothesis configured : Restclient.customErrorConstructor c = Some fn.

Lemma restclient_stream_custom :
  Restclient.DoStream c path method payload =
  (Sent req :: fst (fn req resp),
   passOn (fun err => (StatusCode resp, None, err)) (snd (fn req resp))).
Proof.
  enter_restclient. rewrite dispatched.
  rewrite (restclient_raw_custom c path method rdr req built resp delivered matched).
  unfold Restclient.customErrorResponse. now rewrite configured.
Qed.

Lemma restclient_do_custom (into : any value) (e : error) :
  snd (fn req resp) = Returns (Some e) ->
  Restclient.Do c path method payload into =
  (Sent req :: fst (fn req resp), Returns (StatusCode resp, Some e)).
Proof.
  intros He. change (Restclient.Do c path method payload into)
    with (Restclient.requestJSON c path method payload into).
  unfold Restclient.requestJSON.
  change (Restclient.request c path method payload)
    with (Restclient.DoStream c path method payload).
  rewrite restclient_stream_custom.
  destruct (fn req resp) as [t r]. cbn [snd] in He. subst r.
  run. now rewrite app_nil_r.
Qed.

(** A constructor that returns a nil error leaves [requestJSON] with a
    nil error and a nil body. *)
Lemma restclient_do_custom_nil (into : any value) :
  snd (fn req resp) = Returns None ->
  Restclient.Do c path method payload into =
  (Sent req :: fst (fn req resp), Panics).
Proof.
  intros He. change (Restclient.Do c path method payload into)
    with (Restclient.requestJSON c path method payload into).
  unfold Restclient.requestJSON.
  change (Restclient.request c path method payload)
    with (Restclient.DoStream c path method payload).
  rewrite restclient_stream_custom.
  destruct (fn req resp) as [t r]. cbn [snd] in He. subst r.
  run. now rewrite app_nil_r.
Qed.
End RestclientAnswered.

Section Part000Answered.
Context {rt : GoRuntime}.
Variable c : Part000.httpClient.
Variables method path : string.
Variable payload : any value.
Variable rdr : Reader.
Variable req : Request.
Variable resp : Response.
Hypothesis dispatched : payloadReader payload = inr rdr.
Hypothesis built :
  http_NewRequest method (Part000.fullPath c path) rdr = inr req.
Hypothesis delivered : roundTrip req = inr resp.

Lemma part000_stream_plain :
  Part000.hasCustomError c (StatusCode resp) = false ->
  Part000.DoStream c method path payload =
  ([Sent req], Returns (StatusCode resp, Some (Body resp), None)).
Proof.
  intros H. enter_part000. rewrite dispatched.
  exact (part000_raw_plain c method path rdr req built resp delivered H).
Qed.

Lemma part000_do_plain (into : any value) :
  Part000.hasCustomError c (StatusCode resp) = false ->
  Part000.Do c method path payload into =
  (Sent req ::
     (if isNil into then [] else [Decoded (Body resp) into]) ++
     [Closed (Body resp)],
   Returns (StatusCode resp,
            if isNil into then None else json_Decode (Body resp) into)).
Proof.
  intros H. enter_part000. rewrite dispatched.
  rewrite (part000_raw_plain c method path rdr req built resp delivered H).
  unfold Part000.handleJSONResponse.
  destruct (isNil into); reflexivity.
Qed.

Variable fn : ErrorConstructor.
Hypothesis matched : Part000.hasCustomError c (StatusCode resp) = true.
Hypothesis configured : Part000.customErrorConstructor c = Some fn.

Lemma part000_stream_custom :
  Part000.DoStream c method path payload =
  (Sent req :: fst (fn req resp) ++ [Closed (Body resp)],
   passOn (fun err => (StatusCode resp, None, err)) (snd (fn req resp))).
Proof.
  enter_part000. rewrite dispatched.
  rewrite (part000_raw_custom c method path rdr req built resp delivered matched).
  unfold Part000.customErrorResponse. rewrite configured.
  destruct (fn req resp) as [t r]. reflexivity.
Qed.

Lemma part000_do_custom (into : any value) (e : error) :
  snd (fn req resp) = Returns (Some e) ->
  Part000.Do c method path payload into =
  (Sent req :: fst (fn req resp) ++ [Closed (Body resp)],
   Returns (StatusCode resp, Some e)).
Proof.
  intros He. change (Part000.Do c method path payload into)
    with (Part000.requestJSON c method path payload into).
  unfold Part000.requestJSON.
  change (Part000.request c method path payload)
    with (Part000.DoStream c method path payload).
  rewrite part000_stream_custom.
  destruct (fn req resp) as [t r]. cbn [snd] in He. subst r.
  run. now rewrite app_nil_r.
Qed.

(** A constructor that returns a nil error leaves [requestJSON] with a
    nil error and a nil body. *)
Lemma part000_do_custom_nil (into : any value) :
  snd (fn req resp) = Returns None ->
  Part000.Do c method path payload into =
  (Sent req :: fst (fn req resp) ++ [Closed (Body resp)], Panics).
Proof.
  intros He. change (Part000.Do c method path payload into)
    with (Part000.requestJSON c method path payload into).
  unfold Part000.requestJSON.
  change (Part000.request c method path payload)
    with (Part000.DoStream c method path payload).
  rewrite part000_stream_custom.
  destruct (fn req resp) as [t r]. cbn [snd] in He. subst r.
  run. now rewrite app_nil_r.
Qed.
End Part000Answered.

Lemma restclient_not_custom {rt : GoRuntime} (c : Restclient.httpClient) (code : Z) :
  ~ In code (Restclient.customErrorStatusCodes c) ->
  Restclient.hasCustomError c code = false.
Proof.
  intros H. unfold Restclient.hasCustomError.
  destruct (Restclient.rangeHasCode _ code) eqn:E; [|reflexivity].
  apply rangeHasCode_In_restclient in E. contradiction.
Qed.

Lemma part000_not_custom {rt : GoRuntime} (c : Part000.httpClient) (code : Z) :
  ~ In code (Part000.customErrorStatusCodes c) ->
  Part000.hasCustomError c code = false.
Proof.
  intros H. unfold Part000.hasCustomError.
  destruct (Part000.rangeHasCode _ code) eqn:E; [|reflexivity].
  apply rangeHasCode_In_part000 in E. contradiction.
Qed.

(** C6 -- When a response is received whose status code, whatever it is,
    is not in the configured list, the call is an ordinary success.
    [DoStream] returns the status of the response, its body and a nil
    error, and the trace holds the sending of the request only: the body is
    handed over unread and open.  [Do] returns the status of the response
    and the error of decoding the body into the target, nil when the
    decoder accepts it; the body is closed after decoding, and no
    constructor runs.  In [src/unnamed/part_000] a nil target is not
    decoded into at all.  This holds in both copies of the client. *)
Theorem unlisted_status_is_success {rt : GoRuntime} :
  (forall (c : Restclient.httpClient) (path method : string)
          (payload into : any value) (rdr : Reader)
          (req : Request) (resp : Response),
      payloadReader payload = inr rdr ->
      http_NewRequest method (Restclient.fullPath c path) rdr = inr req ->
      roundTrip req = inr resp ->
      ~ In (StatusCode resp) (Restclient.customErrorStatusCodes c) ->
      Restclient.DoStream c path method payload =
        ([Sent req], Returns (StatusCode resp, Some (Body resp), None)) /\
      Restclient.Do c path method payload into =
        ([Sent req; Decoded (Body resp) into; Closed (Body resp)],
         Returns (StatusCode resp, json_Decode (Body resp) into)))
  /\
  (forall (c : Part000.httpClient) (method path : string)
          (payload into : any value) (rdr : Reader)
          (req : Request) (resp : Response),
      payloadReader payload = inr rdr ->
      http_NewRequest method (Part000.fullPath c path) rdr = inr req ->
      roundTrip req = inr resp ->
      ~ In (StatusCode resp) (Part000.customErrorStatusCodes c) ->
      Part000.DoStream c method path payload =
        ([Sent req], Returns (StatusCode resp, Some (Body resp), None)) /\
      Part000.Do c method path payload into =
        (Sent req ::
           (if isNil into then [] else [Decoded (Body resp) into]) ++
           [Closed (Body resp)],
         Returns (StatusCode resp,
                  if isNil into then None else json_Decode (Body resp) into))).
Proof.
  split; intros c a b payload into rdr req resp Hp Hn Ht Hs.
  - apply restclient_not_custom in Hs. split.
    + now apply restclient_stream_plain with (rdr := rdr).
    + now apply restclient_do_plain with (rdr := rdr).
  - apply part000_not_custom in Hs. split.
    + now apply part000_stream_plain with (rdr := rdr).
    + now apply part000_do_plain with (rdr := rdr).
Qed.

(** ** Configuration *)

(** C10 -- [SetErrorConstructor] leaves host, port and TLS flag as they
    were, and [fullPath] gives the same URL for every path before and
    after it.  This holds in both copies of the client. *)
Theorem SetErrorConstructor_frame {rt : GoRuntime} :
  (forall (c : Restclient.httpClient) (S : list Z) (f : option ErrorConstructor),
      Restclient.host (Restclient.SetErrorConstructor c S f) = Restclient.host c /\
      Restclient.port (Restclient.SetErrorConstructor c S f) = Restclient.port c /\
      Restclient.use_https (Restclient.SetErrorConstructor c S f) =
        Restclient.use_https c /\
      forall p, Restclient.fullPath (Restclient.SetErrorConstructor c S f) p =
                Restclient.fullPath c p)
  /\
  (forall (c : Part000.httpClient) (S : list Z) (f : option ErrorConstructor),
      Part000.host (Part000.SetErrorConstructor c S f) = Part000.host c /\
      Part000.port (Part000.SetErrorConstructor c S f) = Part000.port c /\
      Part000.useHTTPS (Part000.SetErrorConstructor c S f) = Part000.useHTTPS c /\
      forall p, Part000.fullPath (Part000.SetErrorConstructor c S f) p =
                Part000.fullPath c p).
Proof.
  split; intros c S f; repeat split.
Qed.

(** C4 -- [fullPath] is the URL of the specification: the scheme, [://],
    the host, the port segment (empty on port 80 without TLS and on port
    443 with TLS, a colon and the decimal port otherwise) and the path,
    with a slash put in front of a path that does not start with one.
    This holds in both copies of the client. *)
Theorem fullPath_is_specURL {rt : GoRuntime} :
  (forall (c : Restclient.httpClient) (p : string),
      Restclient.fullPath c p =
      specURL (Restclient.host c) (Restclient.port c) (Restclient.use_https c) p)
  /\
  (forall (c : Part000.httpClient) (p : string),
      Part000.fullPath c p =
      specURL (Part000.host c) (Part000.port c) (Part000.useHTTPS c) p).
Proof.
  split; [exact restclient_fullPath_url | exact part000_fullPath_url].
Qed.

(** C5 -- For a path [x] that does not start with a slash, [fullPath x]
    and [fullPath ("/" ++ x)] are the same URL.  This holds in both copies
    of the client. *)
Theorem fullPath_slash_normalised {rt : GoRuntime} :
  (forall (c : Restclient.httpClient) (x : string),
      startsWithSlash x = false ->
      Restclient.fullPath c x = Restclient.fullPath c ("/" ++ x))
  /\
  (forall (c : Part000.httpClient) (x : string),
      startsWithSlash x = false ->
      Part000.fullPath c x = Part000.fullPath c ("/" ++ x)).
Proof.
  split; intros c x Hx.
  - rewrite !restclient_fullPath_url. now apply specURL_slash.
  - rewrite !part000_fullPath_url. now apply specURL_slash.
Qed.

(** C7 -- After [SetErrorConstructor(S1, f1)] and then
    [SetErrorConstructor(S2, f2)] the client is the one that was given
    [(S2, f2)] alone, so every later [Do] and [DoStream] is the call of a
    client that never saw [(S1, f1)].  Its list of statuses is [S2] and its
    constructor is [f2]; a response whose status is not in [S2], be it in
    [S1], is an ordinary success and no constructor runs; a response whose
    status is in [S2] runs [f2] on the request and the response and returns
    what [f2] returns; with [S2] empty no status has a custom error.  This
    holds in both copies of the client. *)
Theorem SetErrorConstructor_replaces {rt : GoRuntime} :
  (forall (c : Restclient.httpClient) (S1 S2 : list Z)
          (f1 f2 : option ErrorConstructor),
      let c' := Restclient.SetErrorConstructor
                  (Restclient.SetErrorConstructor c S1 f1) S2 f2 in
      c' = Restclient.SetErrorConstructor c S2 f2 /\
      (forall path method payload into,
          Restclient.Do c' path method payload into =
            Restclient.Do (Restclient.SetErrorConstructor c S2 f2)
              path method payload into /\
          Restclient.DoStream c' path method payload =
            Restclient.DoStream (Restclient.SetErrorConstructor c S2 f2)
              path method payload) /\
      Restclient.customErrorConstructor c' = f2 /\
      (forall code, Restclient.hasCustomError c' code = true <-> In code S2) /\
      (S2 = [] -> forall code, Restclient.hasCustomError c' code = false) /\
      (forall path method payload rdr req resp,
          payloadReader payload = inr rdr ->
          http_NewRequest method (Restclient.fullPath c' path) rdr = inr req ->
          roundTrip req = inr resp ->
          (~ In (StatusCode resp) S2 ->
           Restclient.DoStream c' path method payload =
             ([Sent req], Returns (StatusCode resp, Some (Body resp), None))) /\
          (In (StatusCode resp) S2 ->
           forall g, f2 = Some g ->
           Restclient.DoStream c' path method payload =
             (Sent req :: fst (g req resp),
              passOn (fun err => (StatusCode resp, None, err))
                     (snd (g req resp))))))
  /\
  (forall (c : Part000.httpClient) (S1 S2 : list Z)
          (f1 f2 : option ErrorConstructor),
      let c' := Part000.SetErrorConstructor
                  (Part000.SetErrorConstructor c S1 f1) S2 f2 in
      c' = Part000.SetErrorConstructor c S2 f2 /\
      (forall method path payload into,
          Part000.Do c' method path payload into =
            Part000.Do (Part000.SetErrorConstructor c S2 f2)
              method path payload into /\
          Part000.DoStream c' method path payload =
            Part000.DoStream (Part000.SetErrorConstructor c S2 f2)
              method path payload) /\
      Part000.customErrorConstructor c' = f2 /\
      (forall code, Part000.hasCustomError c' code = true <-> In code S2) /\
      (S2 = [] -> forall code, Part000.hasCustomError c' code = false) /\
      (forall method path payload rdr req resp,
          payloadReader payload = inr rdr ->
          http_NewRequest method (Part000.fullPath c' path) rdr = inr req ->
          roundTrip req = inr resp ->
          (~ In (StatusCode resp) S2 ->
           Part000.DoStream c' method path payload =
             ([Sent req], Returns (StatusCode resp, Some (Body resp), None))) /\
          (In (StatusCode resp) S2 ->
           forall g, f2 = Some g ->
           Part000.DoStream c' method path payload =
             (Sent req :: fst (g req resp) ++ [Closed (Body resp)],
              passOn (fun err => (StatusCode resp, None, err))
                     (snd (g req resp)))))).
Proof.
  split; intros c S1 S2 f1 f2 c'.
  - split; [reflexivity|]. split; [split; reflexivity|].
    split; [reflexivity|].
    split; [intros code; apply rangeHasCode_In_restclient|].
    split; [intros -> code; reflexivity|].
    intros a b payload rdr req resp Hp Hn Ht. split.
    + intros Hs.
      apply restclient_stream_plain with (rdr := rdr); auto.
      now apply restclient_not_custom.
    + intros Hs g ->.
      apply restclient_stream_custom with (rdr := rdr); auto.
      now apply rangeHasCode_In_restclient.
  - split; [reflexivity|]. split; [split; reflexivity|].
    split; [reflexivity|].
    split; [intros code; apply rangeHasCode_In_part000|].
    split; [intros -> code; reflexivity|].
    intros a b payload rdr req resp Hp Hn Ht. split.
    + intros Hs.
      apply part000_stream_plain with (rdr := rdr); auto.
      now apply part000_not_custom.
    + intros Hs g ->.
      apply part000_stream_custom with (rdr := rdr); auto.
      now apply rangeHasCode_In_part000.
Qed.

(** ** The two copies apart *)

(** In [src/unnamed/part_000] the custom error path does what the
    specification says: with a constructor [fn] configured and the status
    of the response in the list, [DoStream] returns the status, a nil
    stream and what [fn] returned, and the body is closed after [fn] ran,
    whatever [fn] did to it; [Do] returns the status and the error of
    [fn], when [fn] returned one. *)
Lemma part000_custom_error_call {rt : GoRuntime}
    (c : Part000.httpClient) (method path : string) (payload into : any value)
    (rdr : Reader) (req : Request) (resp : Response)
    (fn : ErrorConstructor) (t : list Event) (e : error) :
  payloadReader payload = inr rdr ->
  http_NewRequest method (Part000.fullPath c path) rdr = inr req ->
  roundTrip req = inr resp ->
  In (StatusCode resp) (Part000.customErrorStatusCodes c) ->
  Part000.customErrorConstructor c = Some fn ->
  fn req resp = (t, Returns (Some e)) ->
  Part000.DoStream c method path payload =
    (Sent req :: t ++ [Closed (Body resp)],
     Returns (StatusCode resp, None, Some e)) /\
  Part000.Do c method path payload into =
    (Sent req :: t ++ [Closed (Body resp)],
     Returns (StatusCode resp, Some e)) /\
  closedIn (Body resp) (fst (Part000.Do c method path payload into)) = true.
Proof.
  intros Hp Hn Ht Hs Hc Hf.
  apply rangeHasCode_In_part000 in Hs.
  assert (HD : Part000.Do c method path payload into =
               (Sent req :: t ++ [Closed (Body resp)],
                Returns (StatusCode resp, Some e))).
  { rewrite (part000_do_custom c method path payload rdr req resp Hp Hn Ht
               fn Hs Hc into e); now rewrite Hf. }
  split; [|split; [exact HD|]].
  - rewrite (part000_stream_custom c method path payload rdr req resp Hp Hn Ht
               fn Hs Hc). now rewrite Hf.
  - rewrite HD. cbn [fst closedIn existsb closes orb].
    rewrite existsb_app. cbn [existsb closes]. unfold sameBody.
    now rewrite String.eqb_refl, orb_true_r.
Qed.

(** In [src/unnamed/part_000] a nil target is not decoded into: the body
    is closed unread and the error is nil, whatever the body holds. *)
Lemma part000_nil_target_skips_decoding {rt : GoRuntime}
    (c : Part000.httpClient) (method path : string) (payload : any value)
    (rdr : Reader) (req : Request) (resp : Response) :
  payloadReader payload = inr rdr ->
  http_NewRequest method (Part000.fullPath c path) rdr = inr req ->
  roundTrip req = inr resp ->
  Part000.hasCustomError c (StatusCode resp) = false ->
  Part000.Do c method path payload Nil =
    ([Sent req; Closed (Body resp)], Returns (StatusCode resp, None)).
Proof.
  intros Hp Hn Ht Hs.
  now rewrite (part000_do_plain c method path payload rdr req resp Hp Hn Ht Nil Hs).
Qed.

(** In [src/restclient.go] a nil target goes to the decoder like any
    other, and the decoder never returns a nil error for it. *)
Lemma restclient_nil_target_errs {rt : GoRuntime}
    (c : Restclient.httpClient) (path method : string) (payload : any value)
    (rdr : Reader) (req : Request) (resp : Response) :
  payloadReader payload = inr rdr ->
  http_NewRequest method (Restclient.fullPath c path) rdr = inr req ->
  roundTrip req = inr resp ->
  Restclient.hasCustomError c (StatusCode resp) = false ->
  exists e,
    Restclient.Do c path method payload Nil =
      ([Sent req; Decoded (Body resp) Nil; Closed (Body resp)],
       Returns (StatusCode resp, Some e)).
Proof.
  intros Hp Hn Ht Hs.
  rewrite (restclient_do_plain c path method payload rdr req resp Hp Hn Ht Nil Hs).
  pose proof (json_Decode_nil (Body resp)) as Hnil.
  destruct (json_Decode (Body resp) Nil) as [e|]; [|discriminate].
  now exists e.
Qed.

(** The call of the tests, method first as the [Client] interface has
    it: in [src/restclient.go] the method lands in [path] and the path in
    [method], and no request can be built from them; in
    [src/unnamed/part_000] the request is a GET of the path. *)
Lemma restclient_takes_path_first :
  let rt := fixedRuntime (inr okJSON) in
  Restclient.DoStream (Restclient.New "h" 80 false) "GET" "/hello" Nil =
    ([], Returns (-1, None, Some "net/http: invalid method")) /\
  Part000.DoStream (Part000.New "h" 80 false) "GET" "/hello" Nil =
    ([Sent (mkRequest "GET" "http://h/hello" "null")],
     Returns (200, Some (Body okJSON), None)).
Proof. cbv zeta. split; vm_compute; reflexivity. Qed.

(** C1 -- A response with status 400 to a client whose constructor is
    set for status 400.  In [src/restclient.go] the calls return status
    400 and the error of the constructor, but the trace ends with the
    sending of the request: the body is never closed, where the same call
    in [src/unnamed/part_000] closes it.  In both copies [Do] panics when
    the constructor returns a nil error, where [DoStream] returns status
    400 with a nil stream and the nil error. *)
Theorem custom_error_path_defects :
  let rt := fixedRuntime (inr badRequest) in
  let req := mkRequest "GET" "http://h/x" "" in
  let restclient fn :=
    Restclient.SetErrorConstructor (Restclient.New "h" 80 false) [400] (Some fn) in
  let part000 fn :=
    Part000.SetErrorConstructor (Part000.New "h" 80 false) [400] (Some fn) in
  (Restclient.DoStream (restclient idleConstructor) "/x" "GET" (IsReader "") =
     ([Sent req], Returns (400, None, Some "bad request")) /\
   Restclient.Do (restclient idleConstructor) "/x" "GET" (IsReader "") (Other "target") =
     ([Sent req], Returns (400, Some "bad request")) /\
   closedIn (Body badRequest)
     (fst (Restclient.DoStream (restclient idleConstructor) "/x" "GET" (IsReader "")))
     = false /\
   Part000.DoStream (part000 idleConstructor) "GET" "/x" (IsReader "") =
     ([Sent req; Closed (Body badRequest)],
      Returns (400, None, Some "bad request")))
  /\
  (Restclient.DoStream (restclient nilConstructor) "/x" "GET" (IsReader "") =
     ([Sent req], Returns (400, None, None)) /\
   Restclient.Do (restclient nilConstructor) "/x" "GET" (IsReader "") (Other "target") =
     ([Sent req], Panics) /\
   Part000.DoStream (part000 nilConstructor) "GET" "/x" (IsReader "") =
     ([Sent req; Closed (Body badRequest)], Returns (400, None, None)) /\
   Part000.Do (part000 nilConstructor) "GET" "/x" (IsReader "") (Other "target") =
     ([Sent req; Closed (Body badRequest)], Panics)).
Proof.
  cbv zeta. repeat split; vm_compute; reflexivity.
Qed.

(** C2 -- A response with status 200 to a client without custom errors,
    decoded into a nil target.  In [src/restclient.go] the decoder is run
    on the body and [Do] returns its error, for a body that is not JSON
    and for a body that is; the same call in [src/unnamed/part_000] runs
    no decoder and returns a nil error.  The body is closed in both. *)
Theorem restclient_decodes_into_nil_target :
  let req := mkRequest "GET" "http://h/x" "null" in
  (let rt := fixedRuntime (inr okNotJSON) in
   Restclient.Do (Restclient.New "h" 80 false) "/x" "GET" Nil Nil =
     ([Sent req; Decoded (Body okNotJSON) Nil; Closed (Body okNotJSON)],
      Returns (200, Some "invalid character looking for beginning of value")) /\
   Part000.Do (Part000.New "h" 80 false) "GET" "/x" Nil Nil =
     ([Sent req; Closed (Body okNotJSON)], Returns (200, None)))
  /\
  (let rt := fixedRuntime (inr okJSON) in
   Restclient.Do (Restclient.New "h" 80 false) "/x" "GET" Nil Nil =
     ([Sent req; Decoded (Body okJSON) Nil; Closed (Body okJSON)],
      Returns (200, Some "json: Unmarshal(nil)")) /\
   Part000.Do (Part000.New "h" 80 false) "GET" "/x" Nil Nil =
     ([Sent req; Closed (Body okJSON)], Returns (200, None))).
Proof.
  cbv zeta. repeat split; vm_compute; reflexivity.
Qed.

(** ** The properties at work *)

(** A channel as payload: nothing is sent. *)
Lemma marshal_failure_witness :
  let rt := fixedRuntime (inl "unreachable") in
  let e := "json: unsupported type: chan int" in
  (asReader (Other "chan") = None /\ json_Marshal (Other "chan") = inl e) /\
  (Restclient.DoStream (Restclient.New "h" 80 false) "/x" "POST" (Other "chan") =
     ([], Returns (-1, None, Some e)) /\
   Restclient.Do (Restclient.New "h" 80 false) "/x" "POST" (Other "chan") Nil =
     ([], Returns (-1, Some e))) /\
  (Part000.DoStream (Part000.New "h" 80 false) "POST" "/x" (Other "chan") =
     ([], Returns (-1, None, Some e)) /\
   Part000.Do (Part000.New "h" 80 false) "POST" "/x" (Other "chan") Nil =
     ([], Returns (-1, Some e))).
Proof.
  cbv zeta. split; [split; reflexivity|]. split.
  - apply (proj1 (@marshal_failure_sends_nothing (fixedRuntime (inl "unreachable"))));
      reflexivity.
  - apply (proj2 (@marshal_failure_sends_nothing (fixedRuntime (inl "unreachable"))));
      reflexivity.
Defined.

(** A method that is no token: no request is built, nothing is sent. *)
Lemma request_construction_witness :
  let rt := fixedRuntime (inl "unreachable") in
  let e := "net/http: invalid method" in
  (payloadReader (IsReader "{}") = inr "{}" /\
   http_NewRequest "get it"
     (Restclient.fullPath (Restclient.New "h" 8080 false) "x") "{}" = inl e /\
   http_NewRequest "get it"
     (Part000.fullPath (Part000.New "h" 8080 false) "x") "{}" = inl e) /\
  (Restclient.DoStream (Restclient.New "h" 8080 false) "x" "get it" (IsReader "{}") =
     ([], Returns (-1, None, Some e)) /\
   Restclient.Do (Restclient.New "h" 8080 false) "x" "get it" (IsReader "{}") Nil =
     ([], Returns (-1, Some e))) /\
  (Part000.DoStream (Part000.New "h" 8080 false) "get it" "x" (IsReader "{}") =
     ([], Returns (-1, None, Some e)) /\
   Part000.Do (Part000.New "h" 8080 false) "get it" "x" (IsReader "{}") Nil =
     ([], Returns (-1, Some e))).
Proof.
  cbv zeta. split; [repeat split|]. split.
  - apply (proj1 (@request_construction_failure (fixedRuntime (inl "unreachable")))
             _ _ _ _ _ "{}"); reflexivity.
  - apply (proj2 (@request_construction_failure (fixedRuntime (inl "unreachable")))
             _ _ _ _ _ "{}"); reflexivity.
Defined.

(** A host that refuses the connection: the request is sent, no body is
    touched. *)
Lemma transport_failure_witness :
  let e := "dial tcp: connection refused" in
  let rt := fixedRuntime (inl e) in
  let req := mkRequest "PUT" "https://h:444/welb" "{}" in
  (payloadReader (IsReader "{}") = inr "{}" /\
   http_NewRequest "PUT"
     (Restclient.fullPath (Restclient.New "h" 444 true) "/welb") "{}" = inr req /\
   http_NewRequest "PUT"
     (Part000.fullPath (Part000.New "h" 444 true) "/welb") "{}" = inr req /\
   roundTrip req = inl e) /\
  (Restclient.DoStream (Restclient.New "h" 444 true) "/welb" "PUT" (IsReader "{}") =
     ([Sent req], Returns (-1, None, Some e)) /\
   Restclient.Do (Restclient.New "h" 444 true) "/welb" "PUT" (IsReader "{}") Nil =
     ([Sent req], Returns (-1, Some e))) /\
  (Part000.DoStream (Part000.New "h" 444 true) "PUT" "/welb" (IsReader "{}") =
     ([Sent req], Returns (-1, None, Some e)) /\
   Part000.Do (Part000.New "h" 444 true) "PUT" "/welb" (IsReader "{}") Nil =
     ([Sent req], Returns (-1, Some e))).
Proof.
  cbv zeta. split; [repeat split|]. split.
  - apply (proj1 (@transport_failure (fixedRuntime (inl "dial tcp: connection refused")))
             _ _ _ _ _ "{}"); reflexivity.
  - apply (proj2 (@transport_failure (fixedRuntime (inl "dial tcp: connection refused")))
             _ _ _ _ _ "{}"); reflexivity.
Defined.

(** A 400 to a client without custom errors: an ordinary success. *)
Lemma unlisted_status_witness :
  let rt := fixedRuntime (inr badRequest) in
  let req := mkRequest "GET" "http://h/some_bad" "null" in
  (payloadReader Nil = inr "null" /\
   http_NewRequest "GET"
     (Restclient.fullPath (Restclient.New "h" 80 false) "/some_bad") "null" = inr req /\
   http_NewRequest "GET"
     (Part000.fullPath (Part000.New "h" 80 false) "/some_bad") "null" = inr req /\
   roundTrip req = inr badRequest /\
   ~ In (StatusCode badRequest)
        (Restclient.customErrorStatusCodes (Restclient.New "h" 80 false)) /\
   ~ In (StatusCode badRequest)
        (Part000.customErrorStatusCodes (Part000.New "h" 80 false))) /\
  (Restclient.DoStream (Restclient.New "h" 80 false) "/some_bad" "GET" Nil =
     ([Sent req], Returns (400, Some (bodyOf "{}"), None)) /\
   Restclient.Do (Restclient.New "h" 80 false) "/some_bad" "GET" Nil (Other "res") =
     ([Sent req; Decoded (bodyOf "{}") (Other "res"); Closed (bodyOf "{}")],
      Returns (400, None))) /\
  (Part000.DoStream (Part000.New "h" 80 false) "GET" "/some_bad" Nil =
     ([Sent req], Returns (400, Some (bodyOf "{}"), None)) /\
   Part000.Do (Part000.New "h" 80 false) "GET" "/some_bad" Nil (Other "res") =
     ([Sent req; Decoded (bodyOf "{}") (Other "res"); Closed (bodyOf "{}")],
      Returns (400, None))).
Proof.
  cbv zeta. split; [repeat split; intros []|]. split.
  - exact (proj1 (@unlisted_status_is_success (fixedRuntime (inr badRequest)))
             (Restclient.New "h" 80 false) "/some_bad" "GET" Nil (Other "res")
             "null" (mkRequest "GET" "http://h/some_bad" "null") badRequest
             eq_refl eq_refl eq_refl (fun H => match H with end)).
  - exact (proj2 (@unlisted_status_is_success (fixedRuntime (inr badRequest)))
             (Part000.New "h" 80 false) "GET" "/some_bad" Nil (Other "res")
             "null" (mkRequest "GET" "http://h/some_bad" "null") badRequest
             eq_refl eq_refl eq_refl (fun H => match H with end)).
Defined.

(** The path of the tests, without its slash. *)
Lemma fullPath_slash_witness :
  let rt := fixedRuntime (inl "unreachable") in
  startsWithSlash "haha" = false /\
  Restclient.fullPath (Restclient.New "bar.net" 81 false) "haha" =
    Restclient.fullPath (Restclient.New "bar.net" 81 false) "/haha" /\
  Part000.fullPath (Part000.New "bar.net" 81 false) "haha" =
    Part000.fullPath (Part000.New "bar.net" 81 false) "/haha".
Proof.
  cbv zeta. split; [reflexivity|]. split.
  - apply (proj1 (@fullPath_slash_normalised (fixedRuntime (inl "unreachable"))));
      reflexivity.
  - apply (proj2 (@fullPath_slash_normalised (fixedRuntime (inl "unreachable"))));
      reflexivity.
Defined.

(** A 400 after two configurations: with the second for 500 only the first
    does not count and the call succeeds; with the second for 400 its
    constructor runs; with the second empty nothing is a custom error. *)
Lemma SetErrorConstructor_replaces_witness :
  let rt := fixedRuntime (inr badRequest) in
  let req := mkRequest "POST" "http://h/some_cons_bad" "null" in
  let body := bodyOf "{}" in
  let twiceR S1 f1 S2 f2 :=
    Restclient.SetErrorConstructor
      (Restclient.SetErrorConstructor (Restclient.New "h" 80 false) S1 (Some f1))
      S2 (Some f2) in
  let twiceP S1 f1 S2 f2 :=
    Part000.SetErrorConstructor
      (Part000.SetErrorConstructor (Part000.New "h" 80 false) S1 (Some f1))
      S2 (Some f2) in
  (payloadReader Nil = inr "null" /\
   http_NewRequest "POST" "http://h/some_cons_bad" "null" = inr req /\
   roundTrip req = inr badRequest /\
   ~ In 400 [500] /\ In 400 [400] /\ (@nil Z) = []) /\
  (Restclient.DoStream (twiceR [400] idleConstructor [500] readingConstructor)
     "/some_cons_bad" "POST" Nil =
     ([Sent req], Returns (400, Some body, None)) /\
   Restclient.DoStream (twiceR [500] idleConstructor [400] readingConstructor)
     "/some_cons_bad" "POST" Nil =
     ([Sent req; Read body], Returns (400, None, Some "response is not valid mate")) /\
   Restclient.hasCustomError (twiceR [400] idleConstructor [] readingConstructor) 400
     = false) /\
  (Part000.DoStream (twiceP [400] idleConstructor [500] readingConstructor)
     "POST" "/some_cons_bad" Nil =
     ([Sent req], Returns (400, Some body, None)) /\
   Part000.DoStream (twiceP [500] idleConstructor [400] readingConstructor)
     "POST" "/some_cons_bad" Nil =
     ([Sent req; Read body; Closed body],
      Returns (400, None, Some "response is not valid mate")) /\
   Part000.hasCustomError (twiceP [400] idleConstructor [] readingConstructor) 400
     = false).
Proof.
  cbv zeta.
  pose (rt := fixedRuntime (inr badRequest)).
  pose (req := mkRequest "POST" "http://h/some_cons_bad" "null").
  assert (Hout : ~ In 400 [500]) by (intros [H|[]]; discriminate H).
  assert (Hin : In 400 [400]) by (left; reflexivity).
  split; [repeat split; assumption|]. split; (split; [|split]).
  - destruct (proj1 (@SetErrorConstructor_replaces rt) (Restclient.New "h" 80 false)
                [400] [500] (Some idleConstructor) (Some readingConstructor))
      as (_ & _ & _ & _ & _ & Hresp).
    exact (proj1 (Hresp "/some_cons_bad" "POST" Nil "null" req badRequest
                    eq_refl eq_refl eq_refl) Hout).
  - destruct (proj1 (@SetErrorConstructor_replaces rt) (Restclient.New "h" 80 false)
                [500] [400] (Some idleConstructor) (Some readingConstructor))
      as (_ & _ & _ & _ & _ & Hresp).
    exact (proj2 (Hresp "/some_cons_bad" "POST" Nil "null" req badRequest
                    eq_refl eq_refl eq_refl) Hin readingConstructor eq_refl).
  - destruct (proj1 (@SetErrorConstructor_replaces rt) (Restclient.New "h" 80 false)
                [400] [] (Some idleConstructor) (Some readingConstructor))
      as (_ & _ & _ & _ & Hempty & _).
    exact (Hempty eq_refl 400).
  - destruct (proj2 (@SetErrorConstructor_replaces rt) (Part000.New "h" 80 false)
                [400] [500] (Some idleConstructor) (Some readingConstructor))
      as (_ & _ & _ & _ & _ & Hresp).
    exact (proj1 (Hresp "POST" "/some_cons_bad" Nil "null" req badRequest
                    eq_refl eq_refl eq_refl) Hout).
  - destruct (proj2 (@SetErrorConstructor_replaces rt) (Part000.New "h" 80 false)
                [500] [400] (Some idleConstructor) (Some readingConstructor))
      as (_ & _ & _ & _ & _ & Hresp).
    exact (proj2 (Hresp "POST" "/some_cons_bad" Nil "null" req badRequest
                    eq_refl eq_refl eq_refl) Hin readingConstructor eq_refl).
  - destruct (proj2 (@SetErrorConstructor_replaces rt) (Part000.New "h" 80 false)
                [400] [] (Some idleConstructor) (Some readingConstructor))
      as (_ & _ & _ & _ & Hempty & _).
    exact (Hempty eq_refl 400).
Defined.


(** * Further properties of the code *)

(** ** Every call, case by case *)

Section RestclientAllCalls.
Context {rt : GoRuntime}.
Variable c : Restclient.httpClient.
Variables path method : string.
Variable payload : any value.

Lemma restclient_DoStream_cases :
  Restclient.DoStream c path method payload =
  match payloadReader payload with
  | inl e => ([], Returns (-1, None, Some e))
  | inr rdr =>
      match http_NewRequest method (Restclient.fullPath c path) rdr with
      | inl e => ([], Returns (-1, None, Some e))
      | inr req =>
          match roundTrip req with
          | inl e => ([Sent req], Returns (-1, None, Some e))
          | inr resp =>
              if Restclient.hasCustomError c (StatusCode resp)
              then (Sent req :: fst (Restclient.customErrorResponse c req resp),
                    passOn (fun err => (StatusCode resp, None, err))
                           (snd (Restclient.customErrorResponse c req resp)))
              else ([Sent req],
                    Returns (StatusCode resp, Some (Body resp), None))
          end
      end
  end.
Proof.
  unfold Restclient.DoStream. rewrite restclient_request_dispatch.
  destruct (payloadReader payload) as [e|rdr]; [reflexivity|].
  destruct (http_NewRequest method (Restclient.fullPath c path) rdr)
    as [e|req] eqn:Hn.
  - now apply restclient_raw_unbuilt.
  - destruct (roundTrip req) as [e|resp] eqn:Ht.
    + now apply restclient_raw_unanswered.
    + destruct (Restclient.hasCustomError c (StatusCode resp)) eqn:Hs.
      * now apply restclient_raw_custom.
      * now apply restclient_raw_plain.
Qed.

Lemma restclient_Do_after_DoStream (into : any value) :
  Restclient.Do c path method payload into =
  match Restclient.DoStream c path method payload with
  | (t, Returns (status, _, Some e)) => (t, Returns (status, Some e))
  | (t, Returns (status, Some body, None)) =>
      (t ++ [Decoded body into; Closed body],
       Returns (status, json_Decode body into))
  | (t, Returns (_, None, None)) => (t, Panics)
  | (t, Panics) => (t, Panics)
  end.
Proof.
  unfold Restclient.Do, Restclient.requestJSON, Restclient.DoStream.
  destruct (Restclient.request c path method payload)
    as [t [[[status body] err]|]]; [|reflexivity].
  destruct err as [e|]; [run; rewrite app_nil_r; now destruct body|].
  destruct body as [body|]; run; [reflexivity | now rewrite app_nil_r].
Qed.
End RestclientAllCalls.

Section Part000AllCalls.
Context {rt : GoRuntime}.
Variable c : Part000.httpClient.
Variables method path : string.
Variable payload : any value.

Lemma part000_DoStream_cases :
  Part000.DoStream c method path payload =
  match payloadReader payload with
  | inl e => ([], Returns (-1, None, Some e))
  | inr rdr =>
      match http_NewRequest method (Part000.fullPath c path) rdr with
      | inl e => ([], Returns (-1, None, Some e))
      | inr req =>
          match roundTrip req with
          | inl e => ([Sent req], Returns (-1, None, Some e))
          | inr resp =>
              if Part000.hasCustomError c (StatusCode resp)
              then (Sent req :: fst (Part000.customErrorResponse c req resp),
                    passOn (fun err => (StatusCode resp, None, err))
                           (snd (Part000.customErrorResponse c req resp)))
              else ([Sent req],
                    Returns (StatusCode resp, Some (Body resp), None))
          end
      end
  end.
Proof.
  unfold Part000.DoStream. rewrite part000_request_dispatch.
  destruct (payloadReader payload) as [e|rdr]; [reflexivity|].
  destruct (http_NewRequest method (Part000.fullPath c path) rdr)
    as [e|req] eqn:Hn.
  - now apply part000_raw_unbuilt.
  - destruct (roundTrip req) as [e|resp] eqn:Ht.
    + now apply part000_raw_unanswered.
    + destruct (Part000.hasCustomError c (StatusCode resp)) eqn:Hs.
      * now apply part000_raw_custom.
      * now apply part000_raw_plain.
Qed.

Lemma part000_Do_after_DoStream (into : any value) :
  Part000.Do c method path payload into =
  match Part000.DoStream c method path payload with
  | (t, Returns (status, _, Some e)) => (t, Returns (status, Some e))
  | (t, Returns (status, Some body, None)) =>
      (t ++ (if isNil into then [] else [Decoded body into]) ++ [Closed body],
       Returns (status, if isNil into then None else json_Decode body into))
  | (t, Returns (_, None, None)) => (t, Panics)
  | (t, Panics) => (t, Panics)
  end.
Proof.
  unfold Part000.Do, Part000.requestJSON, Part000.DoStream.
  destruct (Part000.request c method path payload)
    as [t [[[status body] err]|]]; [|reflexivity].
  destruct err as [e|]; [run; rewrite app_nil_r; now destruct body|].
  destruct body as [body|]; run; [|now rewrite app_nil_r].
  unfold Part000.handleJSONResponse. destruct (isNil into); reflexivity.
Qed.

(** The custom error path of this copy: the events of the constructor,
    then the closing of the body. *)
Lemma part000_customErrorResponse_closes (req : Request) (resp : Response) :
  exists t r,
    Part000.customErrorResponse c req resp = (t ++ [Closed (Body resp)], r) /\
    match Part000.customErrorConstructor c with
    | Some fn => fn req resp = (t, r)
    | None => t = [] /\ r = Panics
    end.
Proof.
  unfold Part000.customErrorResponse.
  destruct (Part000.customErrorConstructor c) as [fn|].
  - destruct (fn req resp) as [t r] eqn:E. exists t, r. now split.
  - exists [], Panics. now split.
Qed.
End Part000AllCalls.

Lemma restclient_customErrorResponse_result {rt : GoRuntime}
    (c : Restclient.httpClient) (req : Request) (resp : Response) :
  Restclient.customErrorResponse c req resp =
  match Restclient.customErrorConstructor c with
  | Some fn => fn req resp
  | None => ([], Panics)
  end.
Proof. reflexivity. Qed.

Lemma part000_customErrorResponse_result {rt : GoRuntime}
    (c : Part000.httpClient) (req : Request) (resp : Response) :
  snd (Part000.customErrorResponse c req resp) =
  match Part000.customErrorConstructor c with
  | Some fn => snd (fn req resp)
  | None => Panics
  end.
Proof.
  unfold Part000.customErrorResponse.
  destruct (Part000.customErrorConstructor c) as [fn|]; [|reflexivity].
  now destruct (fn req resp) as [t [e|]].
Qed.


(** Walk through the answers of the runtime to one call. *)
Ltac walk_call :=
  try match goal with
      | |- context [payloadReader ?p] =>
          destruct (payloadReader p) as [?e|?rdr] eqn:?Hp
      end;
  try match goal with
      | |- context [http_NewRequest ?m ?u ?r] =>
          destruct (http_NewRequest m u r) as [?e|?req] eqn:?Hn
      end;
  try match goal with
      | |- context [roundTrip ?r] =>
          destruct (roundTrip r) as [?e|?resp] eqn:?Ht
      end.

Ltac known := first [reflexivity | assumption].

(** ** What a caller can rely on *)


Lemma restclient_In_custom {rt : GoRuntime} (c : Restclient.httpClient) (code : Z) :
  Restclient.hasCustomError c code = true <->
  In code (Restclient.customErrorStatusCodes c).
Proof. apply rangeHasCode_In_restclient. Qed.

Lemma part000_In_custom {rt : GoRuntime} (c : Part000.httpClient) (code : Z) :
  Part000.hasCustomError c code = true <->
  In code (Part000.customErrorStatusCodes c).
Proof. apply rangeHasCode_In_part000. Qed.

Lemma restclient_unlisted {rt : GoRuntime} (c : Restclient.httpClient) (code : Z) :
  Restclient.hasCustomError c code = false ->
  ~ In code (Restclient.customErrorStatusCodes c).
Proof. intros H Hin. apply restclient_In_custom in Hin. congruence. Qed.

Lemma part000_unlisted {rt : GoRuntime} (c : Part000.httpClient) (code : Z) :
  Part000.hasCustomError c code = false ->
  ~ In code (Part000.customErrorStatusCodes c).
Proof. intros H Hin. apply part000_In_custom in Hin. congruence. Qed.

(** X2 -- Whenever [DoStream] returns a stream, the error it returns is
    nil, the status and the stream are those of the response the
    transport delivered, that status is not in the list of custom errors,
    and the only event of the call is the sending of one request: the
    stream is handed over unread and open.  This holds in both copies. *)
Theorem stream_comes_without_error {rt : GoRuntime} :
  (forall (c : Restclient.httpClient) (path method : string)
          (payload : any value) t s body err,
      Restclient.DoStream c path method payload =
        (t, Returns (s, Some body, err)) ->
      err = None /\
      exists rdr req resp,
        payloadReader payload = inr rdr /\
        http_NewRequest method (Restclient.fullPath c path) rdr = inr req /\
        roundTrip req = inr resp /\
        t = [Sent req] /\ s = StatusCode resp /\ body = Body resp /\
        ~ In s (Restclient.customErrorStatusCodes c))
  /\
  (forall (c : Part000.httpClient) (method path : string)
          (payload : any value) t s body err,
      Part000.DoStream c method path payload =
        (t, Returns (s, Some body, err)) ->
      err = None /\
      exists rdr req resp,
        payloadReader payload = inr rdr /\
        http_NewRequest method (Part000.fullPath c path) rdr = inr req /\
        roundTrip req = inr resp /\
        t = [Sent req] /\ s = StatusCode resp /\ body = Body resp /\
        ~ In s (Part000.customErrorStatusCodes c)).
Proof.
  split; intros c a b payload t s body err.
  - rewrite restclient_DoStream_cases. walk_call; try discriminate.
    destruct (Restclient.hasCustomError c (StatusCode resp)) eqn:Hs.
    + destruct (snd (Restclient.customErrorResponse c req resp));
        cbn [passOn]; discriminate.
    + intros H. injection H as <- <- <- <-. split; [reflexivity|].
      exists rdr, req, resp. repeat split; auto.
      now apply restclient_unlisted.
  - rewrite part000_DoStream_cases. walk_call; try discriminate.
    destruct (Part000.hasCustomError c (StatusCode resp)) eqn:Hs.
    + destruct (snd (Part000.customErrorResponse c req resp));
        cbn [passOn]; discriminate.
    + intros H. injection H as <- <- <- <-. split; [reflexivity|].
      exists rdr, req, resp. repeat split; auto.
      now apply part000_unlisted.
Qed.

(** X3 -- Whenever [DoStream] returns a non-nil error, the stream it
    returns is nil, and the status is -1 or one of the statuses in the
    list of custom errors.  This holds in both copies. *)
Theorem error_comes_without_stream {rt : GoRuntime} :
  (forall (c : Restclient.httpClient) (path method : string)
          (payload : any value) t s body e,
      Restclient.DoStream c path method payload =
        (t, Returns (s, body, Some e)) ->
      body = None /\
      (s = -1 \/ In s (Restclient.customErrorStatusCodes c)))
  /\
  (forall (c : Part000.httpClient) (method path : string)
          (payload : any value) t s body e,
      Part000.DoStream c method path payload =
        (t, Returns (s, body, Some e)) ->
      body = None /\
      (s = -1 \/ In s (Part000.customErrorStatusCodes c))).
Proof.
  split; intros c a b payload t s body e.
  - rewrite restclient_DoStream_cases.
    walk_call; try (intros H; inversion H; subst; now auto).
    destruct (Restclient.hasCustomError c (StatusCode resp)) eqn:Hs;
      [|discriminate].
    destruct (snd (Restclient.customErrorResponse c req resp));
      cbn [passOn]; [|discriminate].
    intros H. inversion H; subst. split; [reflexivity|].
    right. now apply restclient_In_custom.
  - rewrite part000_DoStream_cases.
    walk_call; try (intros H; inversion H; subst; now auto).
    destruct (Part000.hasCustomError c (StatusCode resp)) eqn:Hs;
      [|discriminate].
    destruct (snd (Part000.customErrorResponse c req resp));
      cbn [passOn]; [|discriminate].
    intros H. inversion H; subst. split; [reflexivity|].
    right. now apply part000_In_custom.
Qed.

(** X4 -- Every non-nil error that [Do] returns is one of five: the error
    of marshalling the payload, of building the request or of the
    transport, each with status -1; the error the configured constructor
    returned for a response whose status is in the list, with that status;
    or the error of the decoder on the body of a response whose status is
    not in the list, with that status.  This holds in both copies. *)
Theorem Do_errors_by_origin {rt : GoRuntime} :
  (forall (c : Restclient.httpClient) (path method : string)
          (payload into : any value) t s e,
      Restclient.Do c path method payload into = (t, Returns (s, Some e)) ->
      (s = -1 /\ payloadReader payload = inl e) \/
      (exists rdr, payloadReader payload = inr rdr /\
        ((s = -1 /\
          http_NewRequest method (Restclient.fullPath c path) rdr = inl e) \/
         (exists req,
           http_NewRequest method (Restclient.fullPath c path) rdr = inr req /\
           ((s = -1 /\ roundTrip req = inl e) \/
            (exists resp, roundTrip req = inr resp /\ s = StatusCode resp /\
              ((In s (Restclient.customErrorStatusCodes c) /\
                exists fn, Restclient.customErrorConstructor c = Some fn /\
                           snd (fn req resp) = Returns (Some e)) \/
               (~ In s (Restclient.customErrorStatusCodes c) /\
                json_Decode (Body resp) into = Some e))))))))
  /\
  (forall (c : Part000.httpClient) (method path : string)
          (payload into : any value) t s e,
      Part000.Do c method path payload into = (t, Returns (s, Some e)) ->
      (s = -1 /\ payloadReader payload = inl e) \/
      (exists rdr, payloadReader payload = inr rdr /\
        ((s = -1 /\
          http_NewRequest method (Part000.fullPath c path) rdr = inl e) \/
         (exists req,
           http_NewRequest method (Part000.fullPath c path) rdr = inr req /\
           ((s = -1 /\ roundTrip req = inl e) \/
            (exists resp, roundTrip req = inr resp /\ s = StatusCode resp /\
              ((In s (Part000.customErrorStatusCodes c) /\
                exists fn, Part000.customErrorConstructor c = Some fn /\
                           snd (fn req resp) = Returns (Some e)) \/
               (~ In s (Part000.customErrorStatusCodes c) /\
                isNil into = false /\
                json_Decode (Body resp) into = Some e)))))))).
Proof.
  split; intros c a b payload into t s e.
  - rewrite restclient_Do_after_DoStream, restclient_DoStream_cases.
    walk_call.
    + intros H; inversion H; subst. now left.
    + intros H; inversion H; subst. right. exists rdr. split; [known|].
      now left.
    + intros H; inversion H; subst. right. exists rdr. split; [known|].
      right. exists req. split; [known|]. now left.
    + intros H. right. exists rdr. split; [known|].
      right. exists req. split; [known|]. right. exists resp.
      split; [known|].
      destruct (Restclient.hasCustomError c (StatusCode resp)) eqn:Hs.
      * rewrite restclient_customErrorResponse_result in H.
        destruct (Restclient.customErrorConstructor c) as [fn|];
          [|discriminate H].
        destruct (fn req resp) as [t' [[e'|]|]] eqn:Hf;
          cbn [passOn fst snd] in H; try discriminate H.
        inversion H; subst. split; [known|]. left.
        split; [now apply restclient_In_custom|].
        exists fn. split; [known|]. now rewrite Hf.
      * inversion H; subst. split; [known|]. right.
        split; [now apply restclient_unlisted | known].
  - rewrite part000_Do_after_DoStream, part000_DoStream_cases.
    walk_call.
    + intros H; inversion H; subst. now left.
    + intros H; inversion H; subst. right. exists rdr. split; [known|].
      now left.
    + intros H; inversion H; subst. right. exists rdr. split; [known|].
      right. exists req. split; [known|]. now left.
    + intros H. right. exists rdr. split; [known|].
      right. exists req. split; [known|]. right. exists resp.
      split; [known|].
      destruct (Part000.hasCustomError c (StatusCode resp)) eqn:Hs.
      * pose proof (part000_customErrorResponse_result c req resp) as Hr.
        destruct (Part000.customErrorResponse c req resp) as [t' r].
        cbn [snd fst] in Hr, H. subst r.
        destruct (Part000.customErrorConstructor c) as [fn|];
          [|discriminate H].
        destruct (snd (fn req resp)) as [[e'|]|] eqn:Hf;
          cbn [passOn] in H; try discriminate H.
        inversion H; subst. split; [known|]. left.
        split; [now apply part000_In_custom|].
        exists fn. now split.
      * destruct (isNil into) eqn:Hi; [discriminate H|].
        inversion H; subst. split; [known|]. right.
        split; [now apply part000_unlisted|]. split; known.
Qed.

(** X5 -- Whenever [Do] returns a nil error, a response was delivered,
    its status is the one returned and is not in the list of custom
    errors, the decoder accepted the body (or, in
    [src/unnamed/part_000], the target was nil and no decoder ran), and
    the last event of the call is the closing of the body.  This holds in
    both copies. *)
Theorem Do_nil_error_is_success {rt : GoRuntime} :
  (forall (c : Restclient.httpClient) (path method : string)
          (payload into : any value) t s,
      Restclient.Do c path method payload into = (t, Returns (s, None)) ->
      exists rdr req resp,
        payloadReader payload = inr rdr /\
        http_NewRequest method (Restclient.fullPath c path) rdr = inr req /\
        roundTrip req = inr resp /\
        s = StatusCode resp /\
        ~ In s (Restclient.customErrorStatusCodes c) /\
        json_Decode (Body resp) into = None /\
        t = [Sent req; Decoded (Body resp) into; Closed (Body resp)])
  /\
  (forall (c : Part000.httpClient) (method path : string)
          (payload into : any value) t s,
      Part000.Do c method path payload into = (t, Returns (s, None)) ->
      exists rdr req resp,
        payloadReader payload = inr rdr /\
        http_NewRequest method (Part000.fullPath c path) rdr = inr req /\
        roundTrip req = inr resp /\
        s = StatusCode resp /\
        ~ In s (Part000.customErrorStatusCodes c) /\
        (isNil into = true \/ json_Decode (Body resp) into = None) /\
        t = Sent req ::
              (if isNil into then [] else [Decoded (Body resp) into]) ++
              [Closed (Body resp)]).
Proof.
  split; intros c a b payload into t s.
  - rewrite restclient_Do_after_DoStream, restclient_DoStream_cases.
    walk_call; try discriminate.
    destruct (Restclient.hasCustomError c (StatusCode resp)) eqn:Hs.
    + destruct (Restclient.customErrorResponse c req resp) as [t' [[e'|]|]];
        cbn [passOn fst snd]; discriminate.
    + intros H. inversion H; subst.
      exists rdr, req, resp. repeat split; try known.
      now apply restclient_unlisted.
  - rewrite part000_Do_after_DoStream, part000_DoStream_cases.
    walk_call; try discriminate.
    destruct (Part000.hasCustomError c (StatusCode resp)) eqn:Hs.
    + destruct (Part000.customErrorResponse c req resp) as [t' [[e'|]|]];
        cbn [passOn fst snd]; discriminate.
    + intros H. inversion H; subst.
      exists rdr, req, resp. repeat split; try known.
      * now apply part000_unlisted.
      * destruct (isNil into); [now left | now right].
Qed.

Lemma trace_ends_closed {rt : GoRuntime} (body : ReadCloser) (t : list Event) :
  closedIn body (t ++ [Closed body]) = true.
Proof.
  unfold closedIn. rewrite existsb_app. cbn [existsb closes].
  unfold sameBody. now rewrite String.eqb_refl, orb_true_r.
Qed.

(** X6 -- In [src/unnamed/part_000], once the transport has delivered a
    response, [Do] closes its body whatever happens next: the last event
    of the call is the closing of that body, be the status in the list of
    custom errors or not, the constructor nil or not, and whether the call
    returns or panics. *)
Theorem part000_Do_always_closes {rt : GoRuntime}
    (c : Part000.httpClient) (method path : string) (payload into : any value)
    (rdr : Reader) (req : Request) (resp : Response) :
  payloadReader payload = inr rdr ->
  http_NewRequest method (Part000.fullPath c path) rdr = inr req ->
  roundTrip req = inr resp ->
  (exists t0, fst (Part000.Do c method path payload into) =
              t0 ++ [Closed (Body resp)]) /\
  closedIn (Body resp) (fst (Part000.Do c method path payload into)) = true.
Proof.
  intros Hp Hn Ht.
  assert (H : exists t0, fst (Part000.Do c method path payload into) =
                         t0 ++ [Closed (Body resp)]).
  { rewrite part000_Do_after_DoStream, part000_DoStream_cases, Hp, Hn, Ht.
    destruct (Part000.hasCustomError c (StatusCode resp)).
    - destruct (part000_customErrorResponse_closes c req resp)
        as (t' & r & -> & _).
      exists (Sent req :: t').
      destruct r as [[e|]|]; reflexivity.
    - exists (Sent req :: if isNil into then [] else [Decoded (Body resp) into]).
      reflexivity. }
  split; [exact H|].
  destruct H as [t0 ->]. apply trace_ends_closed.
Qed.

(** ** Panics *)




(** ** From one copy to the other *)







(** ** More on URLs and on the list of statuses *)

Lemma append_cancel_l (s a b : string) :
  (s ++ a = s ++ b)%string -> a = b.
Proof.
  induction s as [|ch s IH]; simpl; intros H; [exact H|].
  injection H as H. now apply IH.
Qed.

Lemma specURL_same_path (h : string) (n : Z) (t : bool) (p q : string) :
  specURL h n t p = specURL h n t q <->
  withLeadingSlash p = withLeadingSlash q.
Proof.
  unfold specURL. split; [|now intros ->].
  intros H. repeat apply append_cancel_l in H. exact H.
Qed.

(** X11 -- Two paths give the same URL exactly when they are the same
    path once a slash is put in front of the one that lacks it: the path
    is never shortened, cleaned or escaped.  This holds in both copies. *)
Theorem fullPath_same_URL_iff {rt : GoRuntime} :
  (forall (c : Restclient.httpClient) (p q : string),
      Restclient.fullPath c p = Restclient.fullPath c q <->
      withLeadingSlash p = withLeadingSlash q)
  /\
  (forall (c : Part000.httpClient) (p q : string),
      Part000.fullPath c p = Part000.fullPath c q <->
      withLeadingSlash p = withLeadingSlash q).
Proof.
  split; intros c p q.
  - rewrite !restclient_fullPath_url. apply specURL_same_path.
  - rewrite !part000_fullPath_url. apply specURL_same_path.
Qed.

Lemma withLeadingSlash_cons (p : string) :
  exists rest, withLeadingSlash p = String "/" rest.
Proof.
  pose proof (withLeadingSlash_starts p) as H.
  destruct (withLeadingSlash p) as [|ch rest]; [discriminate H|].
  apply Ascii.eqb_eq in H. subst ch. now exists rest.
Qed.

(** X12 -- Whatever the path, the URL starts with the scheme, the host (as
    given, unchecked) and the port segment, and a slash comes next: the
    path cannot run into the host or the port.  This holds in both
    copies. *)
Theorem fullPath_slash_after_host {rt : GoRuntime} :
  (forall (c : Restclient.httpClient) (p : string),
      exists rest,
        Restclient.fullPath c p =
        (scheme (Restclient.use_https c) ++ "://" ++ Restclient.host c ++
         portSeg (Restclient.use_https c) (Restclient.port c) ++
         "/" ++ rest)%string)
  /\
  (forall (c : Part000.httpClient) (p : string),
      exists rest,
        Part000.fullPath c p =
        (scheme (Part000.useHTTPS c) ++ "://" ++ Part000.host c ++
         portSeg (Part000.useHTTPS c) (Part000.port c) ++
         "/" ++ rest)%string).
Proof.
  split; intros c p; destruct (withLeadingSlash_cons p) as [rest Hr];
    exists rest.
  - rewrite restclient_fullPath_url. unfold specURL. now rewrite Hr.
  - rewrite part000_fullPath_url. unfold specURL. now rewrite Hr.
Qed.

Lemma rangeHasCode_same_restclient (S S' : list Z) (code : Z) :
  (forall x, In x S <-> In x S') ->
  Restclient.rangeHasCode S code = Restclient.rangeHasCode S' code.
Proof.
  intros H.
  destruct (Restclient.rangeHasCode S code) eqn:E1,
           (Restclient.rangeHasCode S' code) eqn:E2; try reflexivity.
  - apply rangeHasCode_In_restclient, H, rangeHasCode_In_restclient in E1.
    congruence.
  - apply rangeHasCode_In_restclient, H, rangeHasCode_In_restclient in E2.
    congruence.
Qed.

Lemma rangeHasCode_same_part000 (S S' : list Z) (code : Z) :
  (forall x, In x S <-> In x S') ->
  Part000.rangeHasCode S code = Part000.rangeHasCode S' code.
Proof.
  intros H.
  destruct (Part000.rangeHasCode S code) eqn:E1,
           (Part000.rangeHasCode S' code) eqn:E2; try reflexivity.
  - apply rangeHasCode_In_part000, H, rangeHasCode_In_part000 in E1.
    congruence.
  - apply rangeHasCode_In_part000, H, rangeHasCode_In_part000 in E2.
    congruence.
Qed.

(** X13 -- [hasCustomError] is membership in the list of statuses: it
    is true exactly for the statuses that occur in the list, so two lists
    with the same statuses, in whatever order and however often repeated,
    configure the same custom errors.  This holds in both copies. *)
Theorem hasCustomError_is_membership {rt : GoRuntime} :
  (forall (c : Restclient.httpClient) (code : Z),
      (Restclient.hasCustomError c code = true <->
       In code (Restclient.customErrorStatusCodes c)) /\
      forall S S' f,
        (forall x, In x S <-> In x S') ->
        Restclient.hasCustomError (Restclient.SetErrorConstructor c S f) code =
        Restclient.hasCustomError (Restclient.SetErrorConstructor c S' f) code)
  /\
  (forall (c : Part000.httpClient) (code : Z),
      (Part000.hasCustomError c code = true <->
       In code (Part000.customErrorStatusCodes c)) /\
      forall S S' f,
        (forall x, In x S <-> In x S') ->
        Part000.hasCustomError (Part000.SetErrorConstructor c S f) code =
        Part000.hasCustomError (Part000.SetErrorConstructor c S' f) code).
Proof.
  split; intros c code; split.
  - apply restclient_In_custom.
  - intros S S' f H. now apply rangeHasCode_same_restclient.
  - apply part000_In_custom.
  - intros S S' f H. now apply rangeHasCode_same_part000.
Qed.

(** X14 -- [TestHttpClientPath] passes: on none of the six cases of its
    table does the loop find a URL other than the expected one, in
    [src/restclient_test.go] against [src/restclient.go] and in
    [src/unnamed/part_001] against [src/unnamed/part_000]. *)
Theorem TestHttpClientPath_passes {rt : GoRuntime} :
  TestHttpClientPath_restclient = [] /\ TestHttpClientPath_part000 = [].
Proof. split; reflexivity. Qed.

(** ** The further properties at work *)

(** A 200 with a JSON body, streamed to the caller. *)
Lemma stream_comes_without_error_witness :
  let rt := fixedRuntime (inr okJSON) in
  let req := mkRequest "GET" "http://h/x" "null" in
  (Restclient.DoStream (Restclient.New "h" 80 false) "/x" "GET" Nil =
     ([Sent req], Returns (200, Some (bodyOf "{}"), None)) /\
   Part000.DoStream (Part000.New "h" 80 false) "GET" "/x" Nil =
     ([Sent req], Returns (200, Some (bodyOf "{}"), None))) /\
  ((@None error = None /\
    exists rdr req' resp,
      payloadReader Nil = inr rdr /\
      http_NewRequest "GET"
        (Restclient.fullPath (Restclient.New "h" 80 false) "/x") rdr = inr req' /\
      roundTrip req' = inr resp /\
      [Sent req] = [Sent req'] /\ 200 = StatusCode resp /\
      bodyOf "{}" = Body resp /\
      ~ In 200 (Restclient.customErrorStatusCodes (Restclient.New "h" 80 false))) /\
   (@None error = None /\
    exists rdr req' resp,
      payloadReader Nil = inr rdr /\
      http_NewRequest "GET"
        (Part000.fullPath (Part000.New "h" 80 false) "/x") rdr = inr req' /\
      roundTrip req' = inr resp /\
      [Sent req] = [Sent req'] /\ 200 = StatusCode resp /\
      bodyOf "{}" = Body resp /\
      ~ In 200 (Part000.customErrorStatusCodes (Part000.New "h" 80 false)))).
Proof.
  cbv zeta. split; [split; reflexivity|]. split.
  - exact (proj1 (@stream_comes_without_error (fixedRuntime (inr okJSON)))
             (Restclient.New "h" 80 false) "/x" "GET" Nil
             [Sent (mkRequest "GET" "http://h/x" "null")] 200 (bodyOf "{}") None
             eq_refl).
  - exact (proj2 (@stream_comes_without_error (fixedRuntime (inr okJSON)))
             (Part000.New "h" 80 false) "GET" "/x" Nil
             [Sent (mkRequest "GET" "http://h/x" "null")] 200 (bodyOf "{}") None
             eq_refl).
Defined.

(** A 400 turned into an error by the constructor. *)
Lemma error_comes_without_stream_witness :
  let rt := fixedRuntime (inr badRequest) in
  let req := mkRequest "GET" "http://h/x" "null" in
  let cR := Restclient.SetErrorConstructor (Restclient.New "h" 80 false)
              [400] (Some idleConstructor) in
  let cP := Part000.SetErrorConstructor (Part000.New "h" 80 false)
              [400] (Some idleConstructor) in
  (Restclient.DoStream cR "/x" "GET" Nil =
     ([Sent req], Returns (400, None, Some "bad request")) /\
   Part000.DoStream cP "GET" "/x" Nil =
     ([Sent req; Closed (bodyOf "{}")], Returns (400, None, Some "bad request"))) /\
  ((@None ReadCloser = None /\
    (400 = -1 \/ In 400 (Restclient.customErrorStatusCodes cR))) /\
   (@None ReadCloser = None /\
    (400 = -1 \/ In 400 (Part000.customErrorStatusCodes cP)))).
Proof.
  cbv zeta. split; [split; reflexivity|]. split.
  - exact (proj1 (@error_comes_without_stream (fixedRuntime (inr badRequest)))
             (Restclient.SetErrorConstructor (Restclient.New "h" 80 false)
                [400] (Some idleConstructor))
             "/x" "GET" Nil
             [Sent (mkRequest "GET" "http://h/x" "null")] 400 None "bad request"
             eq_refl).
  - exact (proj2 (@error_comes_without_stream (fixedRuntime (inr badRequest)))
             (Part000.SetErrorConstructor (Part000.New "h" 80 false)
                [400] (Some idleConstructor))
             "GET" "/x" Nil
             [Sent (mkRequest "GET" "http://h/x" "null"); Closed (bodyOf "{}")]
             400 None "bad request" eq_refl).
Defined.

(** A body that is not JSON: the error of [Do] is the decoder's. *)
Lemma Do_errors_by_origin_witness :
  let rt := fixedRuntime (inr okNotJSON) in
  let req := mkRequest "GET" "http://h/x" "null" in
  let e := "invalid character looking for beginning of value" in
  let body := bodyOf "<html>" in
  (Restclient.Do (Restclient.New "h" 80 false) "/x" "GET" Nil (Other "res") =
     ([Sent req; Decoded body (Other "res"); Closed body], Returns (200, Some e)) /\
   Part000.Do (Part000.New "h" 80 false) "GET" "/x" Nil (Other "res") =
     ([Sent req; Decoded body (Other "res"); Closed body], Returns (200, Some e))) /\
  (exists resp,
      @roundTrip (fixedRuntime (inr okNotJSON)) req = inr resp /\
      200 = StatusCode resp /\
      @json_Decode (fixedRuntime (inr okNotJSON)) (Body resp) (Other "res") =
        Some e).
Proof.
  cbv zeta. split; [split; reflexivity|].
  destruct (proj2 (@Do_errors_by_origin (fixedRuntime (inr okNotJSON)))
              (Part000.New "h" 80 false) "GET" "/x" Nil (Other "res")
              [Sent (mkRequest "GET" "http://h/x" "null");
               @Decoded (fixedRuntime (inr okNotJSON)) (bodyOf "<html>")
                 (Other "res");
               Closed (bodyOf "<html>")]
              200 "invalid character looking for beginning of value" eq_refl)
    as [[H _] | (rdr & _ & H)]; [discriminate H|].
  exists okNotJSON. repeat split.
Defined.

(** A 200 with a JSON body, decoded into the target. *)
Lemma Do_nil_error_is_success_witness :
  let rt := fixedRuntime (inr okJSON) in
  let req := mkRequest "GET" "http://h/x" "null" in
  let body := bodyOf "{}" in
  (Restclient.Do (Restclient.New "h" 80 false) "/x" "GET" Nil (Other "res") =
     ([Sent req; Decoded body (Other "res"); Closed body], Returns (200, None)) /\
   Part000.Do (Part000.New "h" 80 false) "GET" "/x" Nil (Other "res") =
     ([Sent req; Decoded body (Other "res"); Closed body], Returns (200, None))) /\
  ((exists rdr req' resp,
      payloadReader Nil = inr rdr /\
      http_NewRequest "GET"
        (Restclient.fullPath (Restclient.New "h" 80 false) "/x") rdr = inr req' /\
      roundTrip req' = inr resp /\ 200 = StatusCode resp) /\
   (exists rdr req' resp,
      payloadReader Nil = inr rdr /\
      http_NewRequest "GET"
        (Part000.fullPath (Part000.New "h" 80 false) "/x") rdr = inr req' /\
      roundTrip req' = inr resp /\ 200 = StatusCode resp)).
Proof.
  cbv zeta. split; [split; reflexivity|]. split.
  - destruct (proj1 (@Do_nil_error_is_success (fixedRuntime (inr okJSON)))
                (Restclient.New "h" 80 false) "/x" "GET" Nil (Other "res")
                [Sent (mkRequest "GET" "http://h/x" "null");
                 @Decoded (fixedRuntime (inr okJSON)) (bodyOf "{}") (Other "res");
                 Closed (bodyOf "{}")]
                200 eq_refl)
      as (rdr & req' & resp & Hp & Hn & Ht & Hs & _).
    exists rdr, req', resp. now repeat split.
  - destruct (proj2 (@Do_nil_error_is_success (fixedRuntime (inr okJSON)))
                (Part000.New "h" 80 false) "GET" "/x" Nil (Other "res")
                [Sent (mkRequest "GET" "http://h/x" "null");
                 @Decoded (fixedRuntime (inr okJSON)) (bodyOf "{}") (Other "res");
                 Closed (bodyOf "{}")]
                200 eq_refl)
      as (rdr & req' & resp & Hp & Hn & Ht & Hs & _).
    exists rdr, req', resp. now repeat split.
Defined.

(** A 400 to a client whose constructor panics: the body is closed all
    the same. *)
Lemma part000_Do_always_closes_witness :
  let rt := fixedRuntime (inr badRequest) in
  let req := mkRequest "GET" "http://h/x" "null" in
  let c := Part000.SetErrorConstructor (Part000.New "h" 80 false)
             [400] (Some panickingConstructor) in
  (payloadReader Nil = inr "null" /\
   http_NewRequest "GET" (Part000.fullPath c "/x") "null" = inr req /\
   roundTrip req = inr badRequest) /\
  (exists t0, fst (Part000.Do c "GET" "/x" Nil (Other "res")) =
              t0 ++ [Closed (Body badRequest)]) /\
  closedIn (Body badRequest) (fst (Part000.Do c "GET" "/x" Nil (Other "res"))) = true.
Proof.
  cbv zeta. split; [repeat split|].
  exact (@part000_Do_always_closes (fixedRuntime (inr badRequest))
           (Part000.SetErrorConstructor (Part000.New "h" 80 false)
              [400] (Some panickingConstructor))
           "GET" "/x" Nil (Other "res") "null"
           (mkRequest "GET" "http://h/x" "null") badRequest
           eq_refl eq_refl eq_refl).
Defined.



(** The two spellings of one path. *)
Lemma fullPath_same_URL_iff_witness :
  let rt := fixedRuntime (inl "unreachable") in
  withLeadingSlash "haha" = withLeadingSlash "/haha" /\
  Restclient.fullPath (Restclient.New "foo.net" 8080 true) "haha" =
    Restclient.fullPath (Restclient.New "foo.net" 8080 true) "/haha" /\
  Part000.fullPath (Part000.New "foo.net" 8080 true) "haha" =
    Part000.fullPath (Part000.New "foo.net" 8080 true) "/haha".
Proof.
  cbv zeta. split; [reflexivity|]. split.
  - apply (proj1 (@fullPath_same_URL_iff (fixedRuntime (inl "unreachable")))).
    reflexivity.
  - apply (proj2 (@fullPath_same_URL_iff (fixedRuntime (inl "unreachable")))).
    reflexivity.
Defined.

(** One set of statuses, listed in two ways. *)
Lemma hasCustomError_is_membership_witness :
  let rt := fixedRuntime (inl "unreachable") in
  (forall x, In x [400; 500] <-> In x [500; 400; 400]) /\
  Restclient.hasCustomError
    (Restclient.SetErrorConstructor (Restclient.New "h" 80 false) [400; 500] None) 400 =
  Restclient.hasCustomError
    (Restclient.SetErrorConstructor (Restclient.New "h" 80 false) [500; 400; 400] None) 400 /\
  Part000.hasCustomError
    (Part000.SetErrorConstructor (Part000.New "h" 80 false) [400; 500] None) 400 =
  Part000.hasCustomError
    (Part000.SetErrorConstructor (Part000.New "h" 80 false) [500; 400; 400] None) 400.
Proof.
  cbv zeta.
  assert (Hsame : forall x, In x [400; 500] <-> In x [500; 400; 400])
    by (intros x; simpl; tauto).
  split; [exact Hsame|]. split.
  - exact (proj2 (proj1 (@hasCustomError_is_membership (fixedRuntime (inl "unreachable")))
                    (Restclient.New "h" 80 false) 400)
             [400; 500] [500; 400; 400] None Hsame).
  - exact (proj2 (proj2 (@hasCustomError_is_membership (fixedRuntime (inl "unreachable")))
                    (Part000.New "h" 80 false) 400)
             [400; 500] [500; 400; 400] None Hsame).
Defined.
